(** * cgv.py: continuous glucose visualisation

    A shallow embedding of [src/cgv.py] (classes [Week], [CGV] and [PDF])
    and the properties of its week segmentation, per-week rendering and
    report assembly.

    Python exceptions are values of [result]; the [while] loop of
    [segmenting_time_period] runs on fuel, so that a loop that never exits
    is visible as [None]; the file system and the standard output are an
    explicit [World] threaded through the methods that touch them. *)

From Stdlib Require Import Ascii String.
From stdpp Require Import base numbers list strings pretty gmap.

Local Open Scope Z_scope.

(** ** Python exceptions *)

Inductive exn : Set :=
  | AttributeError
  | FileExistsError
  | FileNotFoundError
  | IndexError
  | IsADirectoryError
  | KeyError
  | NotADirectoryError
  | OverflowError
  | TypeError
  | ValueError.

Inductive result (A : Type) : Type :=
  | Ok (a : A)
  | Raise (e : exn).
Arguments Ok {A} a.
Arguments Raise {A} e.

#[global] Instance result_ret : MRet result := @Ok.
#[global] Instance result_bind : MBind result := λ A B f m,
  match m with
  | Ok a => f a
  | Raise e => Raise e
  end.
#[global] Instance result_fmap : FMap result := λ A B f m,
  match m with
  | Ok a => Ok (f a)
  | Raise e => Raise e
  end.

(** ** [datetime.date] and [datetime.timedelta]

    A [date] is its proleptic Gregorian ordinal ([date.toordinal()]):
    0001-01-01 is day 1 and 9999-12-31 is day 3652059. *)

Definition date : Set := Z.

Definition MAXORDINAL : Z := 3652059.

(** [date.weekday()]: Monday is 0, Sunday is 6. *)
Definition weekday (d : date) : Z := (d + 6) `mod` 7.

(** A count of days as a caller passes it. [days_per_segment] has no type
    in the source: it is a whole number or a float, and a float is known by
    the fraction [n/d] it equals (the infinities and the floats that are
    not a number, which [timedelta] refuses, are left out). *)
Inductive number : Set :=
  | PyInt (n : Z)
  | PyFloat (n : Z) (d : positive).

Coercion PyInt : Z >-> number.

(** [n/d] rounded to the nearest whole number, a tie to the even one. *)
Definition round_half_even (n d : Z) : Z :=
  let q := n `div` d in
  let r := n `mod` d in
  if decide (2 * r < d) then q
  else if decide (d < 2 * r) then q + 1
  else if Z.even q then q else q + 1.

Definition MICROSECONDS_PER_DAY : Z := 86400000000.

(** [timedelta(days).days]: a float is rounded to the microsecond, and the
    days are the whole days below it. Half a day has none, minus half a day
    has minus one. *)
Definition whole_days (days : number) : Z :=
  match days with
  | PyInt n => n
  | PyFloat n d =>
      round_half_even (n * MICROSECONDS_PER_DAY) (Z.pos d) `div` MICROSECONDS_PER_DAY
  end.

(** [timedelta(days)], as far as a date sees it: [date + timedelta] adds
    the [days] of the difference and drops its seconds. The day count is of
    magnitude at most 999999999. *)
Definition timedelta (days : number) : result Z :=
  if decide (Z.abs (whole_days days) ≤ 999999999)
  then Ok (whole_days days) else Raise OverflowError.

(** [date + timedelta]: the result has to be a date again. *)
Definition date_add (d : date) (td : Z) : result date :=
  let o := d + td in
  if decide (0 < o ≤ MAXORDINAL) then Ok o else Raise OverflowError.

(** [date - timedelta] is [date + timedelta(-days)]. *)
Definition date_sub (d : date) (td : Z) : result date := date_add d (- td).

(** ** The time stamps of the date column

    [pd.to_datetime] with the format [%m-%d-%Y %H:%M] gives a day and a
    minute of that day; [Timestamp.date()] is the day. *)

Record Timestamp : Set := { ts_date : date; ts_minute : Z }.

Definition ts_le (a b : Timestamp) : bool :=
  bool_decide (ts_date a < ts_date b ∨ (ts_date a = ts_date b ∧ ts_minute a ≤ ts_minute b)).

(** [Series.min()] and [Series.max()]: [None] is [NaT], the minimum and the
    maximum of an empty series. *)
Fixpoint series_min (s : list Timestamp) : option Timestamp :=
  match s with
  | [] => None
  | t :: s' =>
      match series_min s' with
      | None => Some t
      | Some m => Some (if ts_le t m then t else m)
      end
  end.

Fixpoint series_max (s : list Timestamp) : option Timestamp :=
  match s with
  | [] => None
  | t :: s' =>
      match series_max s' with
      | None => Some t
      | Some m => Some (if ts_le m t then t else m)
      end
  end.

(** [.date()] of a time stamp; of [NaT] it is [NaT] again ([None]). *)
Definition Timestamp_date (t : option Timestamp) : option date :=
  match t with
  | Some t => Some (ts_date t)
  | None => None
  end.

(** ** The outside world: files and standard output

    A file is known by the normal form of its path (see [normpath] below);
    what matters of its content is whether it is a directory, a figure that
    matplotlib wrote, or a text the program wrote itself. *)

Inductive content : Set :=
  | Directory
  | Figure
  | Text (s : string).

Record World : Type := { files : gmap string content; stdout : list string }.

Definition write (path : string) (c : content) (σ : World) : World :=
  {| files := <[path := c]> (files σ); stdout := stdout σ |}.

Definition print (line : string) (σ : World) : World :=
  {| files := files σ; stdout := stdout σ ++ [line] |}.

(** The directory of a normal path: what stands before its last [/]; none
    for a name without one. *)
Fixpoint dirname (path : string) : option string :=
  match path with
  | EmptyString => None
  | String c path' =>
      match dirname path' with
      | Some d => Some (String c d)
      | None => if decide (c = "/"%char) then Some EmptyString else None
      end
  end.

(** A file or a folder is made in a directory that is there. The current
    directory and the root always are. *)
Definition parent_directory (path : string) (σ : World) : result unit :=
  match dirname path with
  | None | Some EmptyString => Ok ()
  | Some d =>
      match files σ !! d with
      | Some Directory => Ok ()
      | Some _ => Raise NotADirectoryError
      | None => Raise FileNotFoundError
      end
  end.

(** [with open(path, "w") as f: f.write(text)] *)
Definition open_write (path : string) (text : string) (σ : World) : result World :=
  _ ← parent_directory path σ;
  match files σ !! path with
  | Some Directory => Raise IsADirectoryError
  | _ => Ok (write path (Text text) σ)
  end.

(** [path.mkdir()] *)
Definition mkdir (path : string) (σ : World) : result World :=
  if bool_decide (is_Some (files σ !! path)) then Raise FileExistsError
  else _ ← parent_directory path σ; Ok (write path Directory σ).

(** ** Library functions the program calls

    pandas, datetime and pathlib are not part of the repository: what they
    compute on one cell, one date or one path is a parameter, and so is the
    type [float] of the [float64] values. *)

Class Library (float : Type) : Type := {
  (** [pd.to_datetime(_, format="%m-%d-%Y %H:%M")] on one string *)
  to_datetime : string → result Timestamp;
  (** [pd.to_numeric] on one string *)
  to_numeric : string → result float;
  (** [date.strftime(format)] *)
  strftime : date → string → string;
  (** [repr] of a [datetime.date] *)
  date_repr : date → string;
  (** [str(Path(p))]: the normal form pathlib gives a path *)
  normpath : string → string;
  (** [subprocess.call(["pdflatex", file])]: the run of the program on a
      source file, its exit status dropped; the call raises when the
      program cannot be started *)
  pdflatex : string → World → result World;
}.

(** [Path(p)]: [None] is not a path. *)
Definition Path `{Library float} (p : option string) : result string :=
  match p with
  | Some p => Ok (normpath p)
  | None => Raise TypeError
  end.

(** [path.exists()] *)
Definition Path_exists (path : string) (σ : World) : bool :=
  bool_decide (is_Some (files σ !! path)).

(** ** class [Week] *)

Module Week.
Section Week.
Context {float : Type} `{!Library float}.

Record t : Set := Build { first_day : date; week_number : Z }.

(** [last_day]: [self.first_day + timedelta(days=6)]. *)
Definition last_day (self : t) : result date :=
  td ← timedelta 6; date_add (first_day self) td.

(** [inside_week]: the chained comparison reads [last_day] only when the
    first comparison holds. *)
Definition inside_week (self : t) (day : date) : result bool :=
  if bool_decide (first_day self ≤ day)
  then ld ← last_day self; Ok (bool_decide (day ≤ ld))
  else Ok false.

Definition dateformat (self : t) : string := "%d.%m.%Y".

Definition time_span (self : t) : result string :=
  ld ← last_day self;
  Ok (strftime (first_day self) (dateformat self) +:+ " - "
      +:+ strftime ld (dateformat self)).

(** What [str.format] prints for a [Week]: the [repr] of the dataclass. *)
Definition repr (self : t) : string :=
  "Week(first_day=" +:+ date_repr (first_day self)
  +:+ ", week_number=" +:+ pretty (week_number self) +:+ ")".

End Week.
End Week.

(** ** [CGV.segmenting_time_period] *)

(** The local variables the [while] loop updates. *)
Module Locals.
Record t : Set := Build { first_week_day : date; week : Z; weeks : list Week.t }.
End Locals.

(** One pass through the loop body (lines 143 to 145). *)
Definition loop_body (days_per_segment : number) (st : Locals.t) : result Locals.t :=
  td ← timedelta days_per_segment;
  first_week_day ← date_add (Locals.first_week_day st) td;
  let week := Locals.week st + 1 in
  Ok (Locals.Build first_week_day week
        (Locals.weeks st ++ [Week.Build first_week_day week])).

(** [while first_week_day < last_day: ...]; [None] when the fuel runs out
    with the condition still true. *)
Fixpoint while_loop (fuel : nat) (days_per_segment : number) (last_day : date)
    (st : Locals.t) : option (result Locals.t) :=
  if bool_decide (Locals.first_week_day st < last_day) then
    match fuel with
    | O => None
    | S fuel' =>
        match loop_body days_per_segment st with
        | Ok st' => while_loop fuel' days_per_segment last_day st'
        | Raise e => Some (Raise e)
        end
    end
  else Some (Ok st).

(** Lines 135 to 137: the first day, rolled back to its Monday. The
    weekday of [NaT] is not a number, and [nan > 0] is false: [NaT] stays. *)
Definition aligned_first_day (dates : list Timestamp) : result (option date) :=
  match Timestamp_date (series_min dates) with
  | Some first_day =>
      if bool_decide (weekday first_day > 0)
      then td ← timedelta (weekday first_day); Some <$> date_sub first_day td
      else Ok (Some first_day)
  | None => Ok None
  end.

(** A comparison with [NaT] is false: for a series without a date the loop
    is not entered, and the list returned is empty. *)
Definition segmenting_time_period (fuel : nat) (dates : list Timestamp)
    (days_per_segment : number) : option (result (list Week.t)) :=
  match aligned_first_day dates with
  | Raise e => Some (Raise e)
  | Ok first_day =>
      match first_day, Timestamp_date (series_max dates) with
      | Some first_day, Some last_day =>
          match while_loop fuel days_per_segment last_day (Locals.Build first_day 0 []) with
          | None => None
          | Some (Raise e) => Some (Raise e)
          | Some (Ok st) => Some (Ok (Locals.weeks st))
          end
      | _, _ => Some (Ok [])
      end
  end.

(** ** Tables ([pd.DataFrame]) *)

Section DataFrame.
Context {float : Type} `{!Library float}.

(** A cell: missing, a string, a time stamp or a number. *)
Inductive value : Type :=
  | NaN
  | Str (s : string)
  | Datetime (t : Timestamp)
  | Num (x : float).

Record DataFrame : Type := { columns : list string; rows : list (list value) }.

Definition column_index (df : DataFrame) (name : string) : option nat :=
  fst <$> list_find (λ c, c = name) (columns df).

(** [df[name]] *)
Definition get_column (df : DataFrame) (name : string) : result (list value) :=
  match column_index df name with
  | Some i => Ok ((λ r, default NaN (r !! i)) <$> rows df)
  | None => Raise KeyError
  end.

(** [df[name] = col], for a column the table has *)
Definition set_column (df : DataFrame) (name : string) (col : list value) : DataFrame :=
  match column_index df name with
  | Some i => {| columns := columns df;
                 rows := zip_with (λ r v, <[i := v]> r) (rows df) col |}
  | None => {| columns := columns df ++ [name];
               rows := zip_with (λ r v, r ++ [v]) (rows df) col |}
  end.

Definition notna (v : value) : bool :=
  match v with NaN => false | _ => true end.

(** [df[mask]] *)
Fixpoint boolean_mask {A} (mask : list bool) (l : list A) : list A :=
  match mask, l with
  | b :: mask', x :: l' => if b then x :: boolean_mask mask' l' else boolean_mask mask' l'
  | _, _ => []
  end.

(** [pd.to_datetime] on a column of strings *)
Definition column_to_datetime (col : list value) : result (list value) :=
  mapM (λ v, match v with
             | Str s => Datetime <$> to_datetime s
             | NaN => Ok NaN
             | Datetime t => Ok (Datetime t)
             | Num _ => Raise ValueError
             end) col.

(** The order [sort_values] puts a column of time stamps in: ascending,
    the missing ones last. *)
Definition value_le (a b : value) : bool :=
  match a, b with
  | Datetime s, Datetime t => ts_le s t
  | Datetime _, _ => true
  | _, Datetime _ => false
  | _, _ => true
  end.

(** [df.sort_values(by=name)], by a column of time stamps: a stable sort
    of the rows *)
Fixpoint insert_row (i : nat) (r : list value) (rs : list (list value)) : list (list value) :=
  match rs with
  | [] => [r]
  | r' :: rs' =>
      if value_le (default NaN (r !! i)) (default NaN (r' !! i))
      then r :: r' :: rs'
      else r' :: insert_row i r rs'
  end.

Definition sort_values (df : DataFrame) (name : string) : result DataFrame :=
  match column_index df name with
  | Some i => Ok {| columns := columns df; rows := foldr (insert_row i) [] (rows df) |}
  | None => Raise KeyError
  end.

(** The time stamps of a column, as [min] and [max] see them. *)
Definition timestamps (col : list value) : list Timestamp :=
  omap (λ v, match v with Datetime t => Some t | _ => None end) col.

(** [col.dt.date]: only a column of time stamps has [.dt]. *)
Definition dt_date (col : list value) : result (list date) :=
  mapM (λ v, match v with Datetime t => Ok (ts_date t) | _ => Raise AttributeError end) col.

(** [col.str.replace(pat, repl)] on one string, [pat] one character *)
Fixpoint str_replace (pat : Ascii.ascii) (repl : string) (s : string) : string :=
  match s with
  | EmptyString => EmptyString
  | String c s' =>
      if decide (c = pat) then repl +:+ str_replace pat repl s'
      else String c (str_replace pat repl s')
  end.

Definition is_Num (v : value) : bool :=
  match v with Num _ => true | _ => false end.

Definition is_Datetime (v : value) : bool :=
  match v with Datetime _ => true | _ => false end.

(** A column of one kind: it has a cell of the kind, and nothing but such
    cells and missing ones. *)
Definition column_of (kind : value → bool) (col : list value) : bool :=
  existsb kind col && forallb (λ v, kind v || negb (notna v)) col.

(** [col.str.replace]: a column of numbers or of time stamps has no
    [.str]; in a column of objects a cell that is not a string gives a
    missing value. *)
Definition column_str_replace (pat : Ascii.ascii) (repl : string) (col : list value)
    : result (list value) :=
  if column_of is_Num col || column_of is_Datetime col
  then Raise AttributeError
  else Ok ((λ v, match v with
                 | Str s => Str (str_replace pat repl s)
                 | _ => NaN
                 end) <$> col).

(** [pd.to_numeric] on a column *)
Definition column_to_numeric (col : list value) : result (list value) :=
  mapM (λ v, match v with
             | Str s => Num <$> to_numeric s
             | NaN => Ok NaN
             | Num x => Ok (Num x)
             | Datetime _ => Raise TypeError
             end) col.

End DataFrame.

Arguments value float : clear implicits.
Arguments DataFrame float : clear implicits.

(** A method that reads a local variable which no pass of its loop has
    assigned ends with [UnboundLocalError]; otherwise it completes, with a
    result or an exception, in a world. *)
Inductive completion (A : Type) : Type :=
  | Completes (a : A)
  | UnboundLocalError.
Arguments Completes {A} a.
Arguments UnboundLocalError {A}.

(** ** class [CGV] *)

Module CGV.
Section CGV.
Context {float : Type} `{!Library float}.

Record t : Type := Build {
  data : DataFrame float;
  date_column : string;
  glucose_column : string;
  weeks : list Week.t;
}.

(** Reading an attribute of [self]; one that was never assigned is not
    there. *)
Definition getattr {A} (attr : option A) : result A :=
  match attr with
  | Some a => Ok a
  | None => Raise AttributeError
  end.

(** Lines 105 to 107: keep the rows with a date and a glucose value. *)
Definition drop_missing (data : DataFrame float) (self_date_column self_glucose_column : option string)
    : result (DataFrame float) :=
  date_column ← getattr self_date_column;
  d ← get_column data date_column;
  glucose_column ← getattr self_glucose_column;
  g ← get_column data glucose_column;
  Ok {| columns := columns data;
        rows := boolean_mask (zip_with andb (notna <$> d) (notna <$> g)) (rows data) |}.

Definition convert_glucose_data (data : DataFrame float) (glucose_column : string)
    : result (list (value float)) :=
  glucose_data ← get_column data glucose_column;
  glucose_data ← column_str_replace ","%char "." glucose_data;
  column_to_numeric glucose_data.

Definition _add_figure_folder (σ : World) : result World :=
  p ← Path (Some "./figures/");
  if Path_exists p σ then Ok σ else p ← Path (Some "./figures/"); mkdir p σ.

(** Lines 93 to 111, on the table [pd.read_csv] returned. A [ValueError]
    is built for a column that is not there, and dropped: no [raise]. *)
Definition load (csv : DataFrame float) (date_column glucose_column : string)
    : result (DataFrame float * string * string) :=
  let self_date_column :=
    if decide (date_column ∈ columns csv) then Some date_column else None in
  let self_glucose_column :=
    if decide (glucose_column ∈ columns csv) then Some glucose_column else None in
  data ← drop_missing csv self_date_column self_glucose_column;
  dc ← getattr self_date_column;
  col ← get_column data dc;
  col ← column_to_datetime col;
  let data := set_column data dc col in
  dc ← getattr self_date_column;
  data ← sort_values data dc;
  gc ← getattr self_glucose_column;
  Ok (data, dc, gc).

(** The property [dates]. *)
Definition dates (data : DataFrame float) (date_column : string) : result (list Timestamp) :=
  timestamps <$> get_column data date_column.

Definition __init__ (fuel : nat) (csv : DataFrame float) (date_column glucose_column : string)
    (σ : World) : option (result t * World) :=
  match load csv date_column glucose_column with
  | Raise e => Some (Raise e, σ)
  | Ok (data, dc, gc) =>
      match dates data dc with
      | Raise e => Some (Raise e, σ)
      | Ok ds =>
          match segmenting_time_period fuel ds 7 with
          | None => None
          | Some (Raise e) => Some (Raise e, σ)
          | Some (Ok weeks) =>
              match convert_glucose_data data gc with
              | Raise e => Some (Raise e, σ)
              | Ok col =>
                  match _add_figure_folder σ with
                  | Raise e => Some (Raise e, σ)
                  | Ok σ' => Some (Ok (Build (set_column data gc col) dc gc weeks), σ')
                  end
              end
          end
      end
  end.

(** The argument of [plot_week]: [int | Week]. *)
Inductive week_arg : Set :=
  | Int (n : Z)
  | Obj (w : Week.t).

(** Lines 159 and 160. *)
Definition lookup_week (self : t) (week : week_arg) : result Week.t :=
  match week with
  | Int n =>
      match filter (λ x, Week.week_number x = n) (weeks self) with
      | w :: _ => Ok w
      | [] => Raise IndexError
      end
  | Obj w => Ok w
  end.

(** Lines 161 to 164. *)
Definition week_data (self : t) (week : Week.t) : result (list (list (value float))) :=
  col ← get_column (data self) (date_column self);
  ds ← dt_date col;
  ld ← Week.last_day week;
  let filter_week :=
    (λ d, bool_decide (Week.first_day week ≤ d) && bool_decide (d ≤ ld)) <$> ds in
  Ok (boolean_mask filter_week (rows (data self))).

Definition plot_path (week : Week.t) : result string :=
  span ← Week.time_span week;
  Ok ("./figures/Week" +:+ pretty (Week.week_number week) +:+ "-" +:+ span +:+ ".pgf").

(** Lines 168 to 185: of the drawing calls only what can raise here, the
    columns read and the day after [last_day], and the path. *)
Definition draw (self : t) (week : Week.t) : result string :=
  _ ← get_column (data self) (date_column self);
  _ ← get_column (data self) (glucose_column self);
  ld ← Week.last_day week;
  td ← timedelta 1;
  _ ← date_add ld td;
  plot_path week.

Definition plot_week (self : t) (week : week_arg) (σ : World)
    : result (option string) * World :=
  match (week ← lookup_week self week; wd ← week_data self week; Ok (week, wd)) with
  | Raise e => (Raise e, σ)
  | Ok (week, wd) =>
      if decide (length wd = 0%nat) then
        (Ok None, print ("In week " +:+ Week.repr week +:+ " does no data exist") σ)
      else
        match draw self week with
        | Raise e => (Raise e, σ)
        | Ok path => (Ok (Some path), write (normpath path) Figure σ)
        end
  end.

(** The body of [for week in ...: paths.append(self.plot_week(week))]. *)
Fixpoint for_weeks (self : t) (range : list Z) (paths : list (option string)) (σ : World)
    : result (list (option string)) * World :=
  match range with
  | [] => (Ok paths, σ)
  | week :: range' =>
      match plot_week self (Int week) σ with
      | (Ok path, σ') => for_weeks self range' (paths ++ [path]) σ'
      | (Raise e, σ') => (Raise e, σ')
      end
  end.

(** [range(first_week, last_week)] is [first_week], ..., [last_week - 1]. *)
Definition plot_week_range (self : t) (first_week last_week : Z) (σ : World)
    : result (list (option string)) * World :=
  for_weeks self (seqZ first_week (last_week - first_week)) [] σ.

(** [l.keys()] for a list [l]: a list has no such attribute. *)
Definition list_keys {A} (l : list A) : result (list Z) := Raise AttributeError.

(** [min] and [max] of a list of integers; none for an empty one. *)
Definition py_min (l : list Z) : result Z :=
  match l with
  | [] => Raise ValueError
  | x :: l' => Ok (foldr Z.min x l')
  end.

Definition py_max (l : list Z) : result Z :=
  match l with
  | [] => Raise ValueError
  | x :: l' => Ok (foldr Z.max x l')
  end.

Definition plot_last_week (self : t) (σ : World) : result (list (option string)) * World :=
  match (ks ← list_keys (weeks self); py_max ks) with
  | Raise e => (Raise e, σ)
  | Ok last_week =>
      match plot_week self (Int last_week) σ with
      | (Ok path, σ') => (Ok [path], σ')
      | (Raise e, σ') => (Raise e, σ')
      end
  end.

Definition plot_all_weeks (self : t) (σ : World) : result (list (option string)) * World :=
  match (ks ← list_keys (weeks self); first_week ← py_min ks;
         ks ← list_keys (weeks self); last_week ← py_max ks;
         Ok (first_week, last_week)) with
  | Raise e => (Raise e, σ)
  | Ok (first_week, last_week) => plot_week_range self first_week last_week σ
  end.

(** Lines 209 to 211: [starting_week] after the loop over the weeks; [None]
    when no pass has assigned it. *)
Fixpoint find_starting_week (weeks : list Week.t) (starting_date : date)
    (starting_week : option Z) : result (option Z) :=
  match weeks with
  | [] => Ok starting_week
  | week :: weeks' =>
      inside ← Week.inside_week week starting_date;
      find_starting_week weeks' starting_date
        (if inside : bool then Some (Week.week_number week) else starting_week)
  end.

(** [plot_since_three_month], with [date.today()] as an argument;
    [timedelta(weeks=3 * 4)] is a count of days. *)
Definition plot_since_three_month (today : date) (self : t) (σ : World)
    : completion (result (list (option string)) * World) :=
  match (td ← timedelta (7 * (3 * 4));
         starting_date ← date_sub today td;
         find_starting_week (weeks self) starting_date None) with
  | Raise e => Completes (Raise e, σ)
  | Ok None => UnboundLocalError
  | Ok (Some starting_week) =>
      Completes (plot_week_range self starting_week (Z.of_nat (length (weeks self))) σ)
  end.

End CGV.

Arguments t float : clear implicits.

End CGV.

(** ** class [PDF] *)

Module PDF.
Section PDF.
Context {float : Type} `{!Library float}.

Record t : Set := Build {
  pgf_paths : list string;
  _name : option string;
  _file_name : string;
}.

(** Line 223: [[Path(pgf) for pgf in pgf_paths if Path(pgf).exists()]]. *)
Fixpoint existing_paths (pgf_paths : list (option string)) (σ : World)
    : result (list string) :=
  match pgf_paths with
  | [] => Ok []
  | pgf :: rest =>
      p ← Path pgf;
      if Path_exists p σ
      then p ← Path pgf; ps ← existing_paths rest σ; Ok (p :: ps)
      else existing_paths rest σ
  end.

(** [f"{name}"]: [None] prints as its name. *)
Definition format_name (name : option string) : string := default "None" name.

Definition preamble (self : t) : list string :=
  [ "\documentclass[DIV=15]{scrreprt}";
    "\usepackage[T1]{fontenc}";
    "\usepackage[utf8]{inputenc}";
    "\usepackage[ngerman]{babel}";
    "\usepackage{txfonts}%";
    "\usepackage{pgfplots}";
    "\usepackage{scrlayer-scrpage}";
    "\ihead{" +:+ format_name (_name self) +:+ "}";
    "\ohead{Glukose-Werte}" ].

Definition tab : string := String "009" EmptyString.
Definition newline : string := String "010" EmptyString.

Definition document (self : t) : list string :=
  let lines := ["\begin{document}"; EmptyString] in
  let lines :=
    foldl (λ lines path,
             lines ++ ["\begin{center}"]
                   ++ [tab +:+ "\input{" +:+ path +:+ "}"]
                   ++ ["\end{center}"]
                   ++ [EmptyString])
          lines (pgf_paths self) in
  lines ++ ["\end{document}"].

Definition build_tex_file (self : t) (σ : World) : result World :=
  let lines := preamble self ++ document self in
  open_write (normpath (_file_name self +:+ ".tex")) (String.concat newline lines) σ.

Definition compile_latex (self : t) (σ : World) : result World :=
  pdflatex (_file_name self +:+ ".tex") σ.

(** An exception leaves the world as the calls before it made it. *)
Definition __init__ (pgf_paths : list (option string)) (file_name : string)
    (name : option string) (σ : World) : result t * World :=
  match existing_paths pgf_paths σ with
  | Raise e => (Raise e, σ)
  | Ok paths =>
      let self := Build paths name file_name in
      match build_tex_file self σ with
      | Raise e => (Raise e, σ)
      | Ok σ' =>
          match compile_latex self σ' with
          | Raise e => (Raise e, σ')
          | Ok σ'' => (Ok self, σ'')
          end
      end
  end.

End PDF.
End PDF.

(** ** A reference library

    One instance of [Library], to run the program on concrete tables: the
    proleptic Gregorian calendar of [datetime], plain decimal numerals read
    as exact fractions in lowest terms, paths without their [.] and empty
    components, and a typesetter that leaves the files alone. *)

Module Reference.

Definition is_leap (y : Z) : bool :=
  (y `mod` 4 =? 0) && (negb (y `mod` 100 =? 0) || (y `mod` 400 =? 0)).

Definition days_in_month (y m : Z) : Z :=
  if (m =? 2) && is_leap y then 29
  else nth (Z.to_nat m) [0; 31; 28; 31; 30; 31; 30; 31; 31; 30; 31; 30; 31] 0.

Definition days_before_year (y : Z) : Z :=
  let y := y - 1 in y * 365 + y / 4 - y / 100 + y / 400.

Definition days_before_month (y m : Z) : Z :=
  foldr Z.add 0 (days_in_month y <$> seqZ 1 (m - 1)).

Definition ymd2ord (y m d : Z) : date :=
  days_before_year y + days_before_month y m + d.

Definition ord2ymd (o : date) : Z * Z * Z :=
  let n := o - 1 in
  let n400 := n / 146097 in
  let n := n `mod` 146097 in
  let n100 := n / 36524 in
  let n := n `mod` 36524 in
  let n4 := n / 1461 in
  let n := n `mod` 1461 in
  let n1 := n / 365 in
  let n := n `mod` 365 in
  let year := n400 * 400 + 1 + n100 * 100 + n4 * 4 + n1 in
  if (n1 =? 4) || (n100 =? 4) then (year - 1, 12, 31)
  else
    let month := (n + 50) / 32 in
    let preceding := days_before_month year month in
    if preceding >? n
    then (year, month - 1, n - (preceding - days_in_month year (month - 1)) + 1)
    else (year, month, n - preceding + 1).

Definition digit (c : Ascii.ascii) : option Z :=
  let n := Z.of_nat (nat_of_ascii c) in
  if (48 <=? n) && (n <=? 57) then Some (n - 48) else None.

Fixpoint digits (acc : Z) (s : string) : option Z :=
  match s with
  | EmptyString => Some acc
  | String c s' => d ← digit c; digits (acc * 10 + d) s'
  end.

(** The value of a numeral: one digit or more. *)
Definition read_numeral (s : string) : option Z :=
  match s with
  | EmptyString => None
  | _ => digits 0 s
  end.

Fixpoint split_on (sep : Ascii.ascii) (s : string) : list string :=
  match s with
  | EmptyString => [EmptyString]
  | String c s' =>
      if decide (c = sep) then EmptyString :: split_on sep s'
      else match split_on sep s' with
           | w :: ws => String c w :: ws
           | [] => [String c EmptyString]
           end
  end.

Definition parse_datetime (s : string) : result Timestamp :=
  match split_on " " s with
  | [day; time] =>
      match read_numeral <$> split_on "-" day, read_numeral <$> split_on ":" time with
      | [Some m; Some d; Some y], [Some hh; Some mm] =>
          if (1 <=? y) && (y <=? 9999) && (1 <=? m) && (m <=? 12)
             && (1 <=? d) && (d <=? days_in_month y m)
             && (hh <? 24) && (mm <? 60)
          then Ok {| ts_date := ymd2ord y m d; ts_minute := hh * 60 + mm |}
          else Raise ValueError
      | _, _ => Raise ValueError
      end
  | _ => Raise ValueError
  end.

(** A number: a fraction [(numerator, denominator)] in lowest terms. *)
Definition number : Type := Z * Z.

Definition fraction (n d : Z) : number := (n / Z.gcd n d, d / Z.gcd n d).

Definition parse_decimal (s : string) : result number :=
  match split_on "." s with
  | [int] =>
      match read_numeral int with
      | Some n => Ok (fraction n 1)
      | None => Raise ValueError
      end
  | [int; frac] =>
      match read_numeral int, read_numeral frac with
      | Some n, Some f =>
          let scale := 10 ^ Z.of_nat (String.length frac) in
          Ok (fraction (n * scale + f) scale)
      | _, _ => Raise ValueError
      end
  | _ => Raise ValueError
  end.

Definition two_digits (n : Z) : string :=
  if n <? 10 then "0" +:+ pretty n else pretty n.

(** The directives [%d], [%m] and [%Y]; any other character as it is. *)
Fixpoint format_date (d : date) (format : string) : string :=
  match format with
  | String "%" (String c rest) =>
      let '(year, month, day) := ord2ymd d in
      (if decide (c = "d"%char) then two_digits day
       else if decide (c = "m"%char) then two_digits month
       else if decide (c = "Y"%char) then pretty year
       else String "%" (String c EmptyString))
      +:+ format_date d rest
  | String c rest => String c (format_date d rest)
  | EmptyString => EmptyString
  end.

Definition repr_date (d : date) : string :=
  let '(year, month, day) := ord2ymd d in
  "datetime.date(" +:+ pretty year +:+ ", " +:+ pretty month +:+ ", " +:+ pretty day +:+ ")".

Definition join_path (parts : list string) : string := String.concat "/" parts.

Definition normal_path (p : string) : string :=
  let parts := filter (λ c, c ≠ EmptyString ∧ c ≠ ".") (split_on "/" p) in
  match p, parts with
  | String "/" _, _ => "/" +:+ join_path parts
  | _, [] => "."
  | _, _ => join_path parts
  end.

#[export] Instance library : Library number := {|
  to_datetime := parse_datetime;
  to_numeric := parse_decimal;
  strftime := format_date;
  date_repr := repr_date;
  normpath := normal_path;
  pdflatex := λ _ σ, Ok σ;
|}.

End Reference.

(** ** A sample run

    A table of four rows, one of them without a time stamp, and what the
    program makes of it with the reference library: measurements on
    2023-07-05 (a Wednesday), 2023-07-12 and 2023-07-25. *)

Module Sample.

#[local] Existing Instance Reference.library.

Definition date_column : string := "Zeitstempel".
Definition glucose_column : string := "Glukosewert-Verlauf mmol/L".

Definition csv : DataFrame Reference.number := {|
  columns := ["Seriennummer"; date_column; glucose_column];
  rows := [ [Str "A1"; Str "07-12-2023 08:15"; Str "7,4"];
            [Str "A1"; Str "07-05-2023 09:00"; Str "12,0"];
            [Str "A1"; NaN; Str "5,0"];
            [Str "A1"; Str "07-25-2023 09:00"; Str "6,1"] ] |}.

Definition dates : list Timestamp :=
  [ {| ts_date := 738706; ts_minute := 540 |};
    {| ts_date := 738713; ts_minute := 495 |};
    {| ts_date := 738726; ts_minute := 540 |} ].

Definition weeks : list Week.t :=
  [ Week.Build 738711 1; Week.Build 738718 2; Week.Build 738725 3; Week.Build 738732 4 ].

Definition cgv : CGV.t Reference.number := {|
  CGV.data := {|
    columns := ["Seriennummer"; date_column; glucose_column];
    rows := [ [Str "A1"; Datetime {| ts_date := 738706; ts_minute := 540 |}; Num (12, 1)];
              [Str "A1"; Datetime {| ts_date := 738713; ts_minute := 495 |}; Num (37, 5)];
              [Str "A1"; Datetime {| ts_date := 738726; ts_minute := 540 |}; Num (61, 10)] ] |};
  CGV.date_column := date_column;
  CGV.glucose_column := glucose_column;
  CGV.weeks := weeks |}.

Definition start : World := {| files := ∅; stdout := [] |}.

Definition constructed : World :=
  {| files := {[ "figures" := Directory ]}; stdout := [] |}.

Definition week1 : string := "./figures/Week1-10.07.2023 - 16.07.2023.pgf".
Definition week3 : string := "./figures/Week3-24.07.2023 - 30.07.2023.pgf".

Definition no_data_in_week2 : string :=
  "In week Week(first_day=datetime.date(2023, 7, 17), week_number=2) does no data exist".

(** What [plot_week_range(1, 4)] returns and leaves behind. *)
Definition artifacts : list (option string) := [Some week1; None; Some week3].

Definition rendered : World :=
  {| files := {[ "figures" := Directory;
                 "figures/Week1-10.07.2023 - 16.07.2023.pgf" := Figure;
                 "figures/Week3-24.07.2023 - 30.07.2023.pgf" := Figure ]};
     stdout := [no_data_in_week2] |}.

(** A series of one day: Monday 2023-07-03, and Wednesday 2023-07-05. *)
Definition monday : list Timestamp := [ {| ts_date := 738704; ts_minute := 600 |} ].
Definition wednesday : list Timestamp :=
  [ {| ts_date := 738706; ts_minute := 540 |}; {| ts_date := 738706; ts_minute := 900 |} ].

(** A glucose column of two comma decimals. *)
Definition glucose : DataFrame Reference.number :=
  {| columns := ["mmol/L"]; rows := [[Str "7,4"]; [Str "12,0"]] |}.

(** The earliest and the latest time stamp of [dates]. *)
Definition earliest : Timestamp := {| ts_date := 738706; ts_minute := 540 |}.
Definition latest : Timestamp := {| ts_date := 738726; ts_minute := 540 |}.

(** What [plot_week_range(1, 2)] leaves behind: the figure of week 1. *)
Definition rendered_week1 : World :=
  {| files := {[ "figures" := Directory;
                 "figures/Week1-10.07.2023 - 16.07.2023.pgf" := Figure ]};
     stdout := [] |}.

(** A glucose column of decimals with a dot, and one of numbers. *)
Definition dotted : DataFrame Reference.number :=
  {| columns := ["mmol/L"]; rows := [[Str "7.4"]; [NaN]; [Str "12"]] |}.

Definition numbers : DataFrame Reference.number :=
  {| columns := ["mmol/L"]; rows := [[Num (5, 1)]; [Num (6, 1)]] |}.

End Sample.

(** ** Vocabulary of the statements *)

(** The Monday on or before a date. *)
Definition monday_on_or_before (d : date) : date := d - weekday d.

(** A series the program can segment: it has a time stamp, and its dates
    are dates of the calendar, a week or more before its last day (the
    time stamps of pandas end in the year 2262). *)
Definition segmentable (dates : list Timestamp) : Prop :=
  dates ≠ [] ∧ Forall (λ t, 0 < ts_date t ∧ ts_date t + 6 ≤ MAXORDINAL) dates.

(** The weeks the loop appends in [n] passes made from the boundary [a]
    with the counter at [k]. *)
Definition appended (days a k : Z) (n : nat) : list Week.t :=
  (λ i, Week.Build (a + days * i) (k + i)) <$> seqZ 1 (Z.of_nat n).

(** The number of passes the loop makes from the boundary [a]. *)
Definition passes (days a last_day : Z) : nat :=
  Z.to_nat ((last_day - a + days - 1) `div` days).


(** The day after the last day of a week. *)
Definition day_after (w : Week.t) : result date :=
  ld ← Week.last_day w; td ← timedelta 1; date_add ld td.

(** A numeral: the decimal digits, one or more. *)
Definition is_digit (c : Ascii.ascii) : bool :=
  let n := nat_of_ascii c in (48 <=? n)%nat && (n <=? 57)%nat.

Fixpoint all_digits (s : string) : bool :=
  match s with
  | EmptyString => true
  | String c s' => is_digit c && all_digits s'
  end.

Definition numeral (s : string) : Prop := s ≠ EmptyString ∧ all_digits s = true.

(** A decimal with a comma, and the same decimal with a dot. *)
Definition comma_decimal (int frac : string) : string := int +:+ "," +:+ frac.
Definition dot_decimal (int frac : string) : string := int +:+ "." +:+ frac.

(** The lines that embed one figure in the document. *)
Definition block (path : string) : list string :=
  [ "\begin{center}"; PDF.tab +:+ "\input{" +:+ path +:+ "}"; "\end{center}"; EmptyString ].

(** The cell of a row in the column of index [i]. *)
Definition cell {float : Type} (i : nat) (r : list (value float)) : value float :=
  default NaN (r !! i).

(** A row comes before another by the column of index [i]. *)
Definition key_le {float : Type} (i : nat) (r r' : list (value float)) : Prop :=
  value_le (cell i r) (cell i r') = true.

(** A world that has the files of another, whatever is in them, and its
    output at the start of its own. *)
Definition keeps (σ σ' : World) : Prop :=
  dom (files σ) ⊆ dom (files σ') ∧ stdout σ `prefix_of` stdout σ'.

(** A character occurs in a string. *)
Fixpoint occurs (c : Ascii.ascii) (s : string) : bool :=
  match s with
  | EmptyString => false
  | String c' s' => bool_decide (c' = c) || occurs c s'
  end.

(** Rows in the order of the column of index [i], each before the next. *)
Fixpoint ordered_by {float : Type} (i : nat) (rows : list (list (value float))) : Prop :=
  match rows with
  | [] => True
  | r :: rows' =>
      match rows' with
      | [] => True
      | r' :: _ => key_le i r r'
      end ∧ ordered_by i rows'
  end.

(** A row with a value in the columns of index [i] and [j]. *)
Definition complete {float : Type} (i j : nat) (r : list (value float)) : Prop :=
  notna (cell i r) = true ∧ notna (cell j r) = true.

(** A row with a time stamp in the column of index [i] and a number in
    the column of index [j]. *)
Definition cleaned {float : Type} (i j : nat) (r : list (value float)) : Prop :=
  (∃ t, cell i r = Datetime t) ∧ (∃ x, cell j r = Num x).

(** A row with a time stamp in the column of index [i] and a number or a
    missing value in the column of index [j]. *)
Definition converted {float : Type} (i j : nat) (r : list (value float)) : Prop :=
  (∃ t, cell i r = Datetime t) ∧ (cell j r = NaN ∨ ∃ x, cell j r = Num x).

(** A cell as [pd.read_csv] leaves it in a column of text: a string, or
    missing. *)
Definition textual {float : Type} (v : value float) : Prop :=
  match v with
  | Str _ | NaN => True
  | _ => False
  end.

(** Deciding a closed decidable proposition by evaluation. *)
Ltac decide_by_computation :=
  match goal with
  | |- ?P => apply (bool_decide_unpack P); vm_compute; exact I
  end.

(** * Properties *)

(** ** Dates and weekdays *)

Lemma weekday_bounds (d : date) : 0 ≤ weekday d < 7.
Proof. unfold weekday. apply Z.mod_pos_bound. lia. Qed.

Lemma weekday_add_week (d k : Z) : weekday (d + 7 * k) = weekday d.
Proof.
  unfold weekday. replace (d + 7 * k + 6) with (d + 6 + k * 7) by lia.
  apply Z_mod_plus_full.
Qed.

(** Rolling a date back by its weekday gives a Monday. *)
Lemma weekday_rolled_back (d : date) : weekday (d - weekday d) = 0.
Proof.
  unfold weekday.
  pose proof (Z.div_mod (d + 6) 7 ltac:(lia)) as E.
  replace (d - (d + 6) `mod` 7 + 6) with ((d + 6) `div` 7 * 7) by lia.
  apply Z_mod_mult.
Qed.

(** Day 1 is a Monday: rolling back never leaves the calendar. *)
Lemma rolled_back_positive (d : date) : 0 < d → 0 < d - weekday d.
Proof.
  intros Hd. unfold weekday.
  pose proof (Z.div_mod (d + 6) 7 ltac:(lia)) as E.
  pose proof (Z.mod_pos_bound (d + 6) 7 ltac:(lia)) as B.
  assert (1 ≤ (d + 6) `div` 7) by (apply Z.div_le_lower_bound; lia).
  lia.
Qed.

Lemma timedelta_small (days : Z) : Z.abs days ≤ 999999999 → timedelta days = Ok days.
Proof. intros. unfold timedelta. simpl. by case_decide. Qed.

Lemma date_add_valid (d td : Z) : 0 < d + td ≤ MAXORDINAL → date_add d td = Ok (d + td).
Proof. intros. unfold date_add. simpl. by case_decide. Qed.


Lemma last_day_valid (w : Week.t) :
  0 < Week.first_day w + 6 ≤ MAXORDINAL → Week.last_day w = Ok (Week.first_day w + 6).
Proof. intros. unfold Week.last_day. simpl. by rewrite date_add_valid. Qed.

(** ** Minimum and maximum of a series *)

Lemma series_min_Some (s : list Timestamp) : s ≠ [] → is_Some (series_min s).
Proof. destruct s as [|t s]; [done|]. intros _. simpl. destruct (series_min s); eauto. Qed.

Lemma series_max_Some (s : list Timestamp) : s ≠ [] → is_Some (series_max s).
Proof. destruct s as [|t s]; [done|]. intros _. simpl. destruct (series_max s); eauto. Qed.

Lemma series_min_elem (s : list Timestamp) (m : Timestamp) : series_min s = Some m → m ∈ s.
Proof.
  revert m. induction s as [|t s IH]; intros m; simpl; [done|].
  destruct (series_min s) as [m'|]; intros; simplify_eq; [|set_solver].
  destruct (ts_le t m'); set_solver.
Qed.

Lemma series_max_elem (s : list Timestamp) (m : Timestamp) : series_max s = Some m → m ∈ s.
Proof.
  revert m. induction s as [|t s IH]; intros m; simpl; [done|].
  destruct (series_max s) as [m'|]; intros; simplify_eq; [|set_solver].
  destruct (ts_le m' t); set_solver.
Qed.

(** The date of the minimum is the least date of the series. *)
Lemma series_min_least (s : list Timestamp) (m t : Timestamp) :
  series_min s = Some m → t ∈ s → ts_date m ≤ ts_date t.
Proof.
  revert m. induction s as [|x s IH]; intros m; simpl; [set_solver|].
  destruct (series_min s) as [m'|] eqn:E; intros Hm Ht; simplify_eq.
  - apply elem_of_cons in Ht. destruct Ht as [->|Ht].
    + unfold ts_le. case_bool_decide; lia.
    + specialize (IH m' eq_refl Ht). unfold ts_le. case_bool_decide; lia.
  - destruct s; [|simpl in E; destruct (series_min s); done].
    apply list_elem_of_singleton in Ht. by subst.
Qed.

Lemma series_max_greatest (s : list Timestamp) (m t : Timestamp) :
  series_max s = Some m → t ∈ s → ts_date t ≤ ts_date m.
Proof.
  revert m. induction s as [|x s IH]; intros m; simpl; [set_solver|].
  destruct (series_max s) as [m'|] eqn:E; intros Hm Ht; simplify_eq.
  - apply elem_of_cons in Ht. destruct Ht as [->|Ht].
    + unfold ts_le. case_bool_decide; lia.
    + specialize (IH m' eq_refl Ht). unfold ts_le. case_bool_decide; lia.
  - destruct s; [|simpl in E; destruct (series_max s); done].
    apply list_elem_of_singleton in Ht. by subst.
Qed.

(** ** The loop of [segmenting_time_period] *)

Lemma appended_S (days a k : Z) (n : nat) :
  appended days a k (S n) =
  Week.Build (a + days) (k + 1) :: appended days (a + days) (k + 1) n.
Proof.
  unfold appended. rewrite seqZ_cons by lia. simpl.
  replace (a + days * 1) with (a + days) by lia. f_equal.
  replace (Z.pred (Z.of_nat (S n))) with (Z.of_nat n) by lia.
  replace (Z.succ 1) with (1 + 1) by lia.
  rewrite <- fmap_add_seqZ, <- list_fmap_compose.
  apply list_fmap_ext. intros _ i _. simpl. f_equal; lia.
Qed.

Lemma passes_exit (days a last_day : Z) :
  0 < days → ¬ a < last_day → passes days a last_day = 0%nat.
Proof.
  intros Hd Hge. unfold passes.
  assert ((last_day - a + days - 1) `div` days ≤ 0); [|lia].
  apply Z.lt_succ_r, Z.div_lt_upper_bound; lia.
Qed.

Lemma passes_step (days a last_day : Z) :
  0 < days → a < last_day →
  passes days a last_day = S (passes days (a + days) last_day).
Proof.
  intros Hd Hlt. unfold passes.
  replace (last_day - a + days - 1) with ((last_day - (a + days) + days - 1) + 1 * days) by lia.
  rewrite Z.div_add by lia.
  assert (0 ≤ (last_day - (a + days) + days - 1) `div` days)
    by (apply Z.div_pos; lia).
  lia.
Qed.

Lemma loop_body_Ok (days : Z) (st : Locals.t) :
  Z.abs days ≤ 999999999 →
  0 < Locals.first_week_day st + days ≤ MAXORDINAL →
  loop_body days st =
  Ok (Locals.Build (Locals.first_week_day st + days) (Locals.week st + 1)
        (Locals.weeks st ++
         [Week.Build (Locals.first_week_day st + days) (Locals.week st + 1)])).
Proof.
  intros Hd Hv. unfold loop_body.
  rewrite timedelta_small by done. simpl. by rewrite date_add_valid.
Qed.




(** With dates that stay in the calendar the loop exits after [passes]
    passes, whatever fuel is left. *)
Lemma while_loop_exits (days last_day : Z) (n : nat) :
  0 < days ≤ 999999999 → last_day + days - 1 ≤ MAXORDINAL →
  ∀ (st : Locals.t) (fuel : nat),
    0 < Locals.first_week_day st →
    passes days (Locals.first_week_day st) last_day = n →
    (n ≤ fuel)%nat →
    while_loop fuel days last_day st =
    Some (Ok (Locals.Build
                (Locals.first_week_day st + days * Z.of_nat n)
                (Locals.week st + Z.of_nat n)
                (Locals.weeks st ++
                 appended days (Locals.first_week_day st) (Locals.week st) n))).
Proof.
  intros Hd Hmax. induction n as [|n IH]; intros [a k ws] fuel Ha Hn Hfuel; simpl in *.
  - assert (¬ a < last_day) as Hge.
    { intros Hlt. rewrite passes_step in Hn by lia. done. }
    destruct fuel; simpl; rewrite bool_decide_eq_false_2 by done;
      unfold appended; simpl; rewrite app_nil_r; do 3 f_equal; lia.
  - assert (a < last_day) as Hlt.
    { destruct (decide (a < last_day)); [done|].
      rewrite passes_exit in Hn by lia. done. }
    rewrite passes_step in Hn by lia.
    destruct fuel as [|fuel]; [lia|]. simpl.
    rewrite bool_decide_eq_true_2 by done.
    rewrite loop_body_Ok by (simpl; lia). simpl.
    rewrite (IH _ fuel) by (simpl; lia). simpl.
    rewrite appended_S, <- app_assoc. simpl.
    do 3 f_equal; lia.
Qed.

Lemma lookup_appended (days a k : Z) (n i : nat) (w : Week.t) :
  appended days a k n !! i = Some w ↔
  (i < n)%nat ∧ w = Week.Build (a + days * (Z.of_nat i + 1)) (k + (Z.of_nat i + 1)).
Proof.
  unfold appended. rewrite list_lookup_fmap, fmap_Some. split.
  - intros (j & Hj & ->). apply lookup_seqZ in Hj as [-> ?].
    split; [lia|]. f_equal; lia.
  - intros [Hi ->]. exists (Z.of_nat i + 1). split; [|done].
    apply lookup_seqZ. lia.
Qed.

Lemma elem_of_appended (days a k : Z) (n : nat) (w : Week.t) :
  w ∈ appended days a k n →
  ∃ i, 1 ≤ i ≤ Z.of_nat n ∧ w = Week.Build (a + days * i) (k + i).
Proof.
  intros Hw. apply list_elem_of_lookup in Hw as [i Hi].
  apply lookup_appended in Hi as [Hi ->]. exists (Z.of_nat i + 1). split; [lia|done].
Qed.


(** A segment length of zero keeps the loop going for ever. *)
Lemma while_loop_zero_diverges (last_day : Z) (st : Locals.t) (fuel : nat) :
  0 < Locals.first_week_day st ≤ MAXORDINAL →
  Locals.first_week_day st < last_day →
  while_loop fuel 0 last_day st = None.
Proof.
  revert st. induction fuel as [|fuel IH]; intros st Hv Hlt; simpl;
    rewrite bool_decide_eq_true_2 by done; [done|].
  rewrite loop_body_Ok by (simpl; lia). apply IH; simpl; lia.
Qed.



Lemma aligned_first_day_Ok (dates : list Timestamp) (m : Timestamp) :
  series_min dates = Some m → 0 < ts_date m ≤ MAXORDINAL →
  aligned_first_day dates = Ok (Some (monday_on_or_before (ts_date m))).
Proof.
  intros Hm Hv. unfold aligned_first_day, monday_on_or_before. rewrite Hm. simpl.
  pose proof (weekday_bounds (ts_date m)).
  pose proof (rolled_back_positive (ts_date m) ltac:(lia)).
  case_bool_decide.
  - rewrite timedelta_small by lia. simpl. unfold date_sub.
    rewrite date_add_valid by lia. simpl. do 2 f_equal; lia.
  - do 2 f_equal; lia.
Qed.

(** A series without a time stamp has no week. *)
Lemma segmenting_empty (fuel : nat) (days : number) :
  segmenting_time_period fuel [] days = Some (Ok []).
Proof. reflexivity. Qed.

(** What [segmenting_time_period] returns, whatever fuel is left: the
    boundaries after the first Monday, numbered from 1. *)
Lemma segmenting_closed_form (dates : list Timestamp) (m M : Timestamp) (days : Z) :
  series_min dates = Some m → series_max dates = Some M →
  0 < ts_date m ≤ MAXORDINAL → 0 < days ≤ 999999999 →
  ts_date M + days - 1 ≤ MAXORDINAL →
  ∀ fuel, (passes days (monday_on_or_before (ts_date m)) (ts_date M) ≤ fuel)%nat →
    segmenting_time_period fuel dates days =
    Some (Ok (appended days (monday_on_or_before (ts_date m)) 0
                (passes days (monday_on_or_before (ts_date m)) (ts_date M)))).
Proof.
  intros Hm HM Hv Hd Hmax fuel Hfuel. unfold segmenting_time_period.
  rewrite (aligned_first_day_Ok _ _ Hm Hv), HM. simpl.
  erewrite (while_loop_exits days (ts_date M) _ Hd Hmax _ fuel); simpl; try done.
  apply rolled_back_positive. lia.
Qed.

Lemma segmentable_bounds (dates : list Timestamp) :
  segmentable dates →
  ∃ m M, series_min dates = Some m ∧ series_max dates = Some M
         ∧ 0 < ts_date m ≤ MAXORDINAL ∧ ts_date M + 7 - 1 ≤ MAXORDINAL
         ∧ ts_date m ≤ ts_date M.
Proof.
  intros [Hne Hv]. rewrite Forall_forall in Hv.
  destruct (series_min_Some _ Hne) as [m Hm], (series_max_Some _ Hne) as [M HM].
  exists m, M. pose proof (Hv _ (series_min_elem _ _ Hm)).
  pose proof (Hv _ (series_max_elem _ _ HM)).
  pose proof (series_min_least _ _ _ Hm (series_max_elem _ _ HM)).
  repeat split; try done; lia.
Qed.

Lemma passes_bound (days a last_day : Z) :
  0 < days → a ≤ last_day →
  a + days * Z.of_nat (passes days a last_day) ≤ last_day + days - 1.
Proof.
  intros Hd Hle. unfold passes.
  assert (0 ≤ (last_day - a + days - 1) `div` days) by (apply Z.div_pos; lia).
  pose proof (Z.mul_div_le (last_day - a + days - 1) days Hd). lia.
Qed.

Lemma monday_on_or_before_le (d : date) :
  monday_on_or_before d ≤ d < monday_on_or_before d + 7.
Proof. unfold monday_on_or_before. pose proof (weekday_bounds d). lia. Qed.

(** ** Segmentation *)

(** C2 (as the program behaves): for every series of calendar dates,
    [segmenting_time_period] returns, and the first week it returns, if
    any, starts on the Monday one week after the Monday on or before the
    minimum date: on a Monday, but strictly after the minimum date. *)
Theorem first_week_starts_a_week_late (dates : list Timestamp) (m : Timestamp) :
  segmentable dates → series_min dates = Some m →
  ∃ segments,
    (∃ enough, ∀ fuel, (enough ≤ fuel)%nat →
       segmenting_time_period fuel dates 7 = Some (Ok segments))
    ∧ ∀ w, head segments = Some w →
        Week.first_day w = monday_on_or_before (ts_date m) + 7
        ∧ weekday (Week.first_day w) = 0
        ∧ ts_date m < Week.first_day w.
Proof.
  intros Hseg Hm.
  destruct (segmentable_bounds _ Hseg) as (m' & M & Hm' & HM & Hv & Hmax & Hle).
  rewrite Hm in Hm'. injection Hm' as <-.
  eexists. split.
  - eexists. intros fuel Hfuel.
    by apply (segmenting_closed_form dates m M 7 Hm HM Hv).
  - intros w Hw. rewrite head_lookup in Hw.
    apply lookup_appended in Hw as [_ ->]. simpl.
    pose proof (monday_on_or_before_le (ts_date m)).
    split; [lia|split; [|lia]].
    rewrite weekday_add_week. apply weekday_rolled_back.
Qed.

(** C3: for every series of calendar dates, [segmenting_time_period]
    returns a list of weeks numbered 1, 2, 3, ... in which the day after
    the last day of a week is the first day of the next one, so that first
    days and week numbers increase strictly, without gap or overlap. *)
Theorem segments_contiguous_and_ordered (dates : list Timestamp) :
  segmentable dates →
  ∃ segments,
    (∃ enough, ∀ fuel, (enough ≤ fuel)%nat →
       segmenting_time_period fuel dates 7 = Some (Ok segments))
    ∧ (∀ i w, segments !! i = Some w → Week.week_number w = Z.of_nat i + 1)
    ∧ (∀ i w w', segments !! i = Some w → segments !! S i = Some w' →
         day_after w = Ok (Week.first_day w')
         ∧ (∃ ld, Week.last_day w = Ok ld ∧ ld < Week.first_day w')
         ∧ Week.first_day w < Week.first_day w'
         ∧ Week.week_number w < Week.week_number w').
Proof.
  intros Hseg.
  destruct (segmentable_bounds _ Hseg) as (m & M & Hm & HM & Hv & Hmax & Hle).
  eexists. split; [|split].
  - eexists. intros fuel Hfuel.
    by apply (segmenting_closed_form dates m M 7 Hm HM Hv).
  - intros i w Hw. apply lookup_appended in Hw as [_ ->]. simpl. lia.
  - intros i w w' Hw Hw'.
    apply lookup_appended in Hw as [_ ->]. apply lookup_appended in Hw' as [Hi ->].
    pose proof (monday_on_or_before_le (ts_date m)) as Ha.
    pose proof (rolled_back_positive (ts_date m) ltac:(lia)) as Hpos.
    fold (monday_on_or_before (ts_date m)) in Hpos.
    pose proof (passes_bound 7 (monday_on_or_before (ts_date m)) (ts_date M)
                  ltac:(lia) ltac:(lia)) as Hb.
    unfold day_after. rewrite last_day_valid by (simpl; lia). simpl.
    rewrite date_add_valid by lia.
    split; [f_equal; lia|]. split; [|lia].
    eexists. split; [done|lia].
Qed.

(** C4 (as the program behaves): for a series all of whose time stamps
    are of one day, [segmenting_time_period] returns, and every week it
    returns starts after that day: no week contains it, and when the day is
    a Monday there is no week at all. *)
Theorem single_day_left_uncovered (dates : list Timestamp) (d : date) :
  dates ≠ [] → Forall (λ t, ts_date t = d) dates →
  0 < d → d + 6 ≤ MAXORDINAL →
  ∃ segments,
    (∃ enough, ∀ fuel, (enough ≤ fuel)%nat →
       segmenting_time_period fuel dates 7 = Some (Ok segments))
    ∧ (∀ w, w ∈ segments →
         d < Week.first_day w ∧ Week.inside_week w d = Ok false)
    ∧ (weekday d = 0 → segments = []).
Proof.
  intros Hne Hd Hpos Hmax. rewrite Forall_forall in Hd.
  assert (segmentable dates) as Hseg.
  { split; [done|]. apply Forall_forall. intros t Ht. rewrite (Hd _ Ht). lia. }
  destruct (segmentable_bounds _ Hseg) as (m & M & Hm & HM & Hv & HmaxM & Hle).
  pose proof (Hd _ (series_min_elem _ _ Hm)) as Em.
  pose proof (Hd _ (series_max_elem _ _ HM)) as EM.
  eexists. split; [|split].
  - eexists. intros fuel Hfuel.
    by apply (segmenting_closed_form dates m M 7 Hm HM Hv).
  - intros w Hw. apply elem_of_appended in Hw as (i & Hi & ->).
    rewrite Em. pose proof (monday_on_or_before_le d).
    unfold Week.inside_week. simpl.
    rewrite bool_decide_eq_false_2 by lia. split; [lia|done].
  - intros Hmon. rewrite Em, EM. unfold monday_on_or_before. rewrite Hmon.
    rewrite passes_exit by lia. done.
Qed.



Lemma string_app_cons (c : Ascii.ascii) (s1 s2 : string) :
  String c s1 +:+ s2 = String c (s1 +:+ s2).
Proof. reflexivity. Qed.

Lemma string_app_assoc (s1 s2 s3 : string) : (s1 +:+ s2) +:+ s3 = s1 +:+ s2 +:+ s3.
Proof.
  induction s1 as [|c s1 IH]; [done|].
  rewrite !string_app_cons. by rewrite IH.
Qed.

Lemma mapM_cons {A B} (f : A → result B) (x : A) (l : list A) :
  mapM f (x :: l) = y ← f x; k ← mapM f l; Ok (y :: k).
Proof. reflexivity. Qed.

Section properties.
Context {float : Type} `{!Library float}.

(** ** Construction *)

Lemma column_index_Some (df : DataFrame float) (name : string) :
  name ∈ columns df → is_Some (column_index df name).
Proof.
  intros Hin. unfold column_index.
  destruct (list_find_elem_of (λ c, c = name) _ _ Hin eq_refl) as [[i c] ->].
  by eexists.
Qed.

(** C1 (as the program behaves): for every table that lacks the date
    column or the glucose column, [CGV.__init__] does fail before it
    segments, and leaves the world as it was, but with the
    [AttributeError] of reading the attribute it never assigned: the
    [ValueError] that names the column is built and dropped. *)
Theorem missing_column_raises_AttributeError (fuel : nat) (csv : DataFrame float)
    (date_column glucose_column : string) (σ : World) :
  date_column ∉ columns csv ∨ glucose_column ∉ columns csv →
  CGV.__init__ fuel csv date_column glucose_column σ = Some (Raise AttributeError, σ).
Proof.
  intros Hmissing. unfold CGV.__init__, CGV.load, CGV.drop_missing.
  destruct (decide (date_column ∈ columns csv)) as [Hd|Hd]; simpl; [|done].
  destruct Hmissing as [?|Hg]; [done|].
  rewrite decide_False by done.
  unfold get_column. destruct (column_index_Some _ _ Hd) as [i ->]. done.
Qed.

(** ** Rendering *)

(** C6: for every week whose selection is empty, [plot_week] returns the
    absent path without raising, writes no file, and prints one line;
    the loop of [plot_week_range] that meets such a week records the
    absent path and goes on with the weeks that remain. *)
Theorem empty_week_is_skipped (self : CGV.t float) (week : Week.t) (σ : World) :
  CGV.week_data self week = Ok [] →
  let σ' := print ("In week " +:+ Week.repr week +:+ " does no data exist") σ in
  CGV.plot_week self (CGV.Obj week) σ = (Ok None, σ')
  ∧ files σ' = files σ
  ∧ ∀ n rest paths,
      CGV.lookup_week self (CGV.Int n) = Ok week →
      CGV.for_weeks self (n :: rest) paths σ
      = CGV.for_weeks self rest (paths ++ [None]) σ'.
Proof.
  intros Hempty σ'. split; [|split].
  - unfold CGV.plot_week. simpl. by rewrite Hempty.
  - done.
  - intros n rest paths Hn. simpl. unfold CGV.plot_week.
    rewrite Hn. simpl. by rewrite Hempty.
Qed.

(** C10: for every integer that is the number of no week, [plot_week]
    raises [IndexError], the first element of an empty list, and touches
    nothing; it does not return the absent path. *)
Theorem unknown_week_number_raises_IndexError (self : CGV.t float) (n : Z) (σ : World) :
  Forall (λ w, Week.week_number w ≠ n) (CGV.weeks self) →
  CGV.plot_week self (CGV.Int n) σ = (Raise IndexError, σ).
Proof.
  intros Hn. rewrite Forall_forall in Hn. unfold CGV.plot_week, CGV.lookup_week.
  destruct (filter _ _) as [|w ws] eqn:E; [done|].
  assert (w ∈ filter (λ x, Week.week_number x = n) (CGV.weeks self)) as Hw
    by (rewrite E; left).
  apply list_elem_of_filter in Hw as [Hw Hin]. by destruct (Hn w Hin).
Qed.

(** C8 (as the program behaves): [plot_all_weeks] renders nothing. The
    weeks are a list, a list has no [keys], and the call raises
    [AttributeError] before any week is looked up. *)
Theorem plot_all_weeks_raises_AttributeError (self : CGV.t float) (σ : World) :
  CGV.plot_all_weeks self σ = (Raise AttributeError, σ).
Proof. reflexivity. Qed.

(** [plot_week_range] leaves its last week out: from a week to the next
    one it renders the first of the two only. *)
Lemma plot_week_range_excludes_last (self : CGV.t float) (first_week : Z) (σ : World) :
  CGV.plot_week_range self first_week (first_week + 1) σ
  = match CGV.plot_week self (CGV.Int first_week) σ with
    | (Ok path, σ') => (Ok [path], σ')
    | (Raise e, σ') => (Raise e, σ')
    end.
Proof.
  unfold CGV.plot_week_range.
  replace (first_week + 1 - first_week) with 1 by lia.
  rewrite seqZ_cons, seqZ_nil by lia. simpl.
  by destruct (CGV.plot_week _ _ _) as [[?|?] ?].
Qed.

(** ** Assembly *)

(** Of paths that are all strings, the ones that exist are kept, in
    their order. *)
Lemma existing_paths_strings (paths : list string) (σ : World) :
  PDF.existing_paths (Some <$> paths) σ
  = Ok (filter (λ p, Path_exists p σ = true) (normpath <$> paths)).
Proof.
  induction paths as [|p paths IH]; csimpl; [done|].
  rewrite filter_cons, IH. destruct (Path_exists (normpath p) σ) eqn:E.
  - by rewrite decide_True.
  - by rewrite decide_False.
Qed.

(** The document has one block per path, in their order. *)
Lemma document_blocks (self : PDF.t) :
  PDF.document self
  = ["\begin{document}"; EmptyString] ++ (PDF.pgf_paths self ≫= block)
    ++ ["\end{document}"].
Proof.
  unfold PDF.document. rewrite (app_assoc _ _ ["\end{document}"]). f_equal.
  generalize ["\begin{document}"; EmptyString].
  induction (PDF.pgf_paths self) as [|p ps IH]; intros lines; csimpl.
  - by rewrite app_nil_r.
  - rewrite IH. unfold block. by rewrite <- !app_assoc.
Qed.

(** C7 (as the program behaves): for every list of artifact paths with
    an absent one among them, [PDF.__init__] raises [TypeError], for an
    absent path is no path, and writes no document. *)
Theorem absent_artifact_raises_TypeError (pgf_paths : list (option string))
    (file_name : string) (name : option string) (σ : World) :
  None ∈ pgf_paths →
  PDF.__init__ pgf_paths file_name name σ = (Raise TypeError, σ).
Proof.
  intros Hin. unfold PDF.__init__.
  assert (PDF.existing_paths pgf_paths σ = Raise TypeError) as ->; [|done].
  induction pgf_paths as [|[p|] rest IH]; simpl.
  - by apply elem_of_nil in Hin.
  - apply elem_of_cons in Hin. destruct Hin as [?|Hin]; [done|].
    rewrite (IH Hin). by destruct (Path_exists _ _).
  - done.
Qed.

(** ** Conversion of the glucose values *)

Lemma str_replace_app (pat : Ascii.ascii) (repl s1 s2 : string) :
  str_replace pat repl (s1 +:+ s2)
  = str_replace pat repl s1 +:+ str_replace pat repl s2.
Proof.
  induction s1 as [|c s1 IH]; [done|].
  rewrite string_app_cons. simpl. rewrite IH.
  case_decide; [|done]. symmetry. apply string_app_assoc.
Qed.

Lemma str_replace_digits (repl s : string) :
  all_digits s = true → str_replace "," repl s = s.
Proof.
  induction s as [|c s IH]; simpl; [done|].
  intros [Hc Hs]%andb_true_iff. rewrite (IH Hs).
  case_decide as E; [|done]. by rewrite E in Hc.
Qed.

Lemma str_replace_comma_decimal (int frac : string) :
  numeral int → numeral frac →
  str_replace "," "." (comma_decimal int frac) = dot_decimal int frac.
Proof.
  intros [_ Hi] [_ Hf]. unfold comma_decimal, dot_decimal.
  rewrite !str_replace_app.
  rewrite (str_replace_digits _ int), (str_replace_digits _ frac) by done.
  reflexivity.
Qed.

Lemma column_of_none (kind : value float → bool) (col : list (value float)) :
  Forall (λ v, kind v = false) col → column_of kind col = false.
Proof.
  intros Hcol. unfold column_of.
  assert (existsb kind col = false) as ->; [|done].
  induction Hcol as [|v col Hv _ IH]; [done|]. simpl. by rewrite Hv, IH.
Qed.

Lemma column_of_all (kind : value float → bool) (col : list (value float)) :
  col ≠ [] → Forall (λ v, kind v = true) col → column_of kind col = true.
Proof.
  intros Hne Hcol. unfold column_of. apply andb_true_iff. split.
  - destruct Hcol as [|v col Hv _]; [done|]. simpl. by rewrite Hv.
  - clear Hne. induction Hcol as [|v col Hv _ IH]; [done|]. simpl. by rewrite Hv, IH.
Qed.

(** A column without a number and without a time stamp has [.str]. *)
Lemma column_str_replace_objects (pat : Ascii.ascii) (repl : string)
    (col : list (value float)) :
  Forall (λ v, is_Num v = false ∧ is_Datetime v = false) col →
  column_str_replace pat repl col
  = Ok ((λ v, match v with
              | Str s => Str (str_replace pat repl s)
              | _ => NaN
              end) <$> col).
Proof.
  intros Hcol. unfold column_str_replace.
  rewrite !column_of_none; [done|..];
    (eapply Forall_impl; [exact Hcol|]); by intros v [? ?].
Qed.

(** C9: a glucose column of comma decimals converts to the numbers
    [pd.to_numeric] reads from the same decimals written with a dot. *)
Theorem comma_decimals_convert (data : DataFrame float) (glucose_column : string)
    (decimals : list (string * string)) :
  Forall (λ d, numeral d.1 ∧ numeral d.2) decimals →
  get_column data glucose_column
  = Ok ((λ d, Str (comma_decimal d.1 d.2)) <$> decimals) →
  CGV.convert_glucose_data data glucose_column
  = column_to_numeric ((λ d, Str (dot_decimal d.1 d.2)) <$> decimals).
Proof.
  intros Hnum Hcol. unfold CGV.convert_glucose_data. rewrite Hcol. simpl.
  clear Hcol.
  assert (column_str_replace "," "." ((λ d, Str (comma_decimal d.1 d.2)) <$> decimals)
          = Ok ((λ d, Str (dot_decimal d.1 d.2)) <$> decimals)) as ->; [|done].
  rewrite column_str_replace_objects by (by apply Forall_fmap, Forall_true).
  f_equal. rewrite <- list_fmap_compose. apply Forall_fmap_ext.
  eapply Forall_impl; [exact Hnum|]. intros [int frac] [Hi Hf]. simpl.
  by rewrite str_replace_comma_decimal.
Qed.

End properties.

(** ** The sample run *)

Section sample.
#[local] Existing Instance Reference.library.

Example sample_construction :
  CGV.__init__ 4 Sample.csv Sample.date_column Sample.glucose_column Sample.start
  = Some (Ok Sample.cgv, Sample.constructed).
Proof. vm_compute. reflexivity. Qed.

(** A table without a row gives an object without a row and without a
    week. *)
Example empty_construction :
  CGV.__init__ 0 {| columns := columns Sample.csv; rows := [] |}
    Sample.date_column Sample.glucose_column Sample.start
  = Some (Ok (CGV.Build {| columns := columns Sample.csv; rows := [] |}
                Sample.date_column Sample.glucose_column []),
          Sample.constructed).
Proof. vm_compute. reflexivity. Qed.

(** Half a day adds no day to a date, minus half a day takes one. *)
Example timedelta_half_day :
  timedelta (PyFloat 1 2) = Ok 0 ∧ timedelta (PyFloat (-1) 2) = Ok (-1)
  ∧ timedelta (PyFloat 3 2) = Ok 1.
Proof. vm_compute. done. Qed.

(** In a column of objects a number has no string to replace in. *)
Example mixed_column_replace :
  column_str_replace "," "." [Str "7,4"; Num (5, 1); NaN]
  = Ok [Str "7.4"; NaN; NaN : value Reference.number].
Proof. vm_compute. reflexivity. Qed.

(** The report source cannot be opened in a folder that is not there. *)
Example report_in_missing_folder :
  PDF.__init__ [] "nodir/report" None Sample.constructed
  = (Raise FileNotFoundError, Sample.constructed).
Proof. vm_compute. reflexivity. Qed.

Example sample_segmentation :
  segmenting_time_period 4 Sample.dates 7 = Some (Ok Sample.weeks).
Proof. vm_compute. reflexivity. Qed.

Example sample_rendering :
  CGV.plot_week_range Sample.cgv 1 4 Sample.constructed
  = (Ok Sample.artifacts, Sample.rendered).
Proof. vm_compute. reflexivity. Qed.

(** A Monday alone gives no week; a Wednesday alone gives the week that
    starts on the Monday after it. *)
Example sample_single_monday :
  segmenting_time_period 1 Sample.monday 7 = Some (Ok []).
Proof. vm_compute. reflexivity. Qed.

Example sample_single_wednesday :
  segmenting_time_period 1 Sample.wednesday 7 = Some (Ok [Week.Build 738711 1]).
Proof. vm_compute. reflexivity. Qed.

(** With a segment of three days the weeks, seven days each, overlap:
    contiguity rests on the default length, the one [__init__] uses. *)
Example three_day_segments_overlap :
  segmenting_time_period 9 Sample.dates 3 = Some (Ok (appended 3 738704 0 8))
  ∧ appended 3 738704 0 8 !! 0%nat = Some (Week.Build 738707 1)
  ∧ appended 3 738704 0 8 !! 1%nat = Some (Week.Build 738710 2)
  ∧ day_after (Week.Build 738707 1) = Ok 738714.
Proof. vm_compute. done. Qed.

(** Strings that are no paths are dropped one by one; the document of the
    two figures of the sample has two blocks. *)
Example sample_assembly :
  (PDF.document <$> (PDF.__init__ [Some Sample.week1; Some "./figures/none.pgf"; Some Sample.week3]
                       "report" (Some "Johannes Schorr") Sample.rendered).1)
  = Ok (["\begin{document}"; EmptyString]
        ++ block "figures/Week1-10.07.2023 - 16.07.2023.pgf"
        ++ block "figures/Week3-24.07.2023 - 30.07.2023.pgf"
        ++ ["\end{document}"]).
Proof. vm_compute. reflexivity. Qed.

(** ** Witnesses *)

Lemma missing_column_raises_AttributeError_witness :
  (Sample.date_column ∉ columns Sample.csv ∨ "Glukose" ∉ columns Sample.csv)
  ∧ CGV.__init__ 0 Sample.csv Sample.date_column "Glukose" Sample.start
    = Some (Raise AttributeError, Sample.start).
Proof.
  assert ("Glukose" ∉ columns Sample.csv) as Hmissing by decide_by_computation.
  split; [by right|].
  apply missing_column_raises_AttributeError. by right.
Defined.

Lemma first_week_starts_a_week_late_witness :
  segmentable Sample.dates
  ∧ series_min Sample.dates = Some {| ts_date := 738706; ts_minute := 540 |}
  ∧ ∃ segments,
      (∃ enough, ∀ fuel, (enough ≤ fuel)%nat →
         segmenting_time_period fuel Sample.dates 7 = Some (Ok segments))
      ∧ ∀ w, head segments = Some w →
          Week.first_day w = monday_on_or_before 738706 + 7
          ∧ weekday (Week.first_day w) = 0
          ∧ 738706 < Week.first_day w.
Proof.
  assert (segmentable Sample.dates) as Hseg by (split; [done|decide_by_computation]).
  split; [done|]. split; [reflexivity|].
  exact (first_week_starts_a_week_late Sample.dates _ Hseg eq_refl).
Defined.

Lemma segments_contiguous_and_ordered_witness :
  segmentable Sample.dates
  ∧ ∃ segments,
      (∃ enough, ∀ fuel, (enough ≤ fuel)%nat →
         segmenting_time_period fuel Sample.dates 7 = Some (Ok segments))
      ∧ (∀ i w, segments !! i = Some w → Week.week_number w = Z.of_nat i + 1)
      ∧ (∀ i w w', segments !! i = Some w → segments !! S i = Some w' →
           day_after w = Ok (Week.first_day w')
           ∧ (∃ ld, Week.last_day w = Ok ld ∧ ld < Week.first_day w')
           ∧ Week.first_day w < Week.first_day w'
           ∧ Week.week_number w < Week.week_number w').
Proof.
  assert (segmentable Sample.dates) as Hseg by (split; [done|decide_by_computation]).
  split; [done|].
  exact (segments_contiguous_and_ordered Sample.dates Hseg).
Defined.

Lemma single_day_left_uncovered_witness :
  (Sample.wednesday ≠ [] ∧ Forall (λ t, ts_date t = 738706) Sample.wednesday
   ∧ 0 < 738706 ∧ 738706 + 6 ≤ MAXORDINAL)
  ∧ ∃ segments,
      (∃ enough, ∀ fuel, (enough ≤ fuel)%nat →
         segmenting_time_period fuel Sample.wednesday 7 = Some (Ok segments))
      ∧ (∀ w, w ∈ segments →
           738706 < Week.first_day w ∧ Week.inside_week w 738706 = Ok false)
      ∧ (weekday 738706 = 0 → segments = []).
Proof.
  assert (Forall (λ t, ts_date t = 738706) Sample.wednesday) as Hday
    by decide_by_computation.
  assert (738706 + 6 ≤ MAXORDINAL) as Hmax by (unfold MAXORDINAL; lia).
  split; [split; [done|split; [done|split; [lia|done]]]|].
  apply single_day_left_uncovered; [done|done|lia|done].
Defined.


Lemma empty_week_is_skipped_witness :
  CGV.week_data Sample.cgv (Week.Build 738718 2) = Ok []
  ∧ CGV.plot_week Sample.cgv (CGV.Obj (Week.Build 738718 2)) Sample.constructed
    = (Ok None, print Sample.no_data_in_week2 Sample.constructed).
Proof.
  assert (CGV.week_data Sample.cgv (Week.Build 738718 2) = Ok []) as Hempty
    by (vm_compute; reflexivity).
  split; [done|].
  exact (proj1 (empty_week_is_skipped Sample.cgv _ Sample.constructed Hempty)).
Defined.

Lemma absent_artifact_raises_TypeError_witness :
  None ∈ Sample.artifacts
  ∧ PDF.__init__ Sample.artifacts "report" (Some "Johannes Schorr") Sample.rendered
    = (Raise TypeError, Sample.rendered).
Proof.
  assert (None ∈ Sample.artifacts) as Habsent by decide_by_computation.
  split; [done|]. by apply absent_artifact_raises_TypeError.
Defined.

Lemma comma_decimals_convert_witness :
  (Forall (λ d, numeral d.1 ∧ numeral d.2) [("7", "4"); ("12", "0")]
   ∧ get_column Sample.glucose "mmol/L"
     = Ok ((λ d, Str (comma_decimal d.1 d.2)) <$> [("7", "4"); ("12", "0")]))
  ∧ CGV.convert_glucose_data Sample.glucose "mmol/L"
    = Ok [Num (37, 5); Num (12, 1)].
Proof.
  assert (Forall (λ d, numeral d.1 ∧ numeral d.2) [("7", "4"); ("12", "0")]) as Hnum
    by decide_by_computation.
  split; [split; [done|reflexivity]|].
  rewrite (comma_decimals_convert Sample.glucose "mmol/L" [("7", "4"); ("12", "0")]
             Hnum eq_refl).
  reflexivity.
Defined.

Lemma unknown_week_number_raises_IndexError_witness :
  Forall (λ w, Week.week_number w ≠ 5) (CGV.weeks Sample.cgv)
  ∧ CGV.plot_week Sample.cgv (CGV.Int 5) Sample.constructed
    = (Raise IndexError, Sample.constructed).
Proof.
  assert (Forall (λ w, Week.week_number w ≠ 5) (CGV.weeks Sample.cgv)) as Hnone
    by decide_by_computation.
  split; [done|]. by apply unknown_week_number_raises_IndexError.
Defined.

End sample.

(** * Further properties *)

(** ** The weeks of a series *)

(** What [segmenting_time_period] returns for a series it can segment, in
    one statement for the properties below. *)
Lemma segmenting_returns (dates : list Timestamp) (m M : Timestamp) :
  segmentable dates → series_min dates = Some m → series_max dates = Some M →
  ∃ n : nat,
    (∀ fuel, (n ≤ fuel)%nat →
       segmenting_time_period fuel dates 7
       = Some (Ok (appended 7 (monday_on_or_before (ts_date m)) 0 n)))
    ∧ Z.of_nat n = (ts_date M - monday_on_or_before (ts_date m) + 6) `div` 7
    ∧ 0 < monday_on_or_before (ts_date m) ≤ ts_date m
    ∧ ts_date m < monday_on_or_before (ts_date m) + 7
    ∧ ts_date m ≤ ts_date M
    ∧ ts_date M ≤ monday_on_or_before (ts_date m) + 7 * Z.of_nat n
    ∧ monday_on_or_before (ts_date m) + 7 * Z.of_nat n ≤ ts_date M + 6
    ∧ ts_date M + 6 ≤ MAXORDINAL.
Proof.
  intros Hseg Hm HM.
  destruct (segmentable_bounds _ Hseg) as (m' & M' & Hm' & HM' & Hv & Hmax & Hle).
  rewrite Hm in Hm'. rewrite HM in HM'. injection Hm' as <-. injection HM' as <-.
  pose proof (monday_on_or_before_le (ts_date m)) as Ha.
  pose proof (rolled_back_positive (ts_date m) ltac:(lia)) as Hpos.
  fold (monday_on_or_before (ts_date m)) in Hpos.
  pose proof (passes_bound 7 (monday_on_or_before (ts_date m)) (ts_date M)
                ltac:(lia) ltac:(lia)) as Hb.
  exists (passes 7 (monday_on_or_before (ts_date m)) (ts_date M)).
  assert (Z.of_nat (passes 7 (monday_on_or_before (ts_date m)) (ts_date M))
          = (ts_date M - monday_on_or_before (ts_date m) + 6) `div` 7) as Hn.
  { unfold passes.
    replace (ts_date M - monday_on_or_before (ts_date m) + 7 - 1)
      with (ts_date M - monday_on_or_before (ts_date m) + 6) by lia.
    apply Z2Nat.id, Z.div_pos; lia. }
  split; [|repeat split; try lia].
  - intros fuel Hfuel. by apply (segmenting_closed_form dates m M 7 Hm HM Hv).
  - rewrite Hn.
    pose proof (Z.mod_pos_bound (ts_date M - monday_on_or_before (ts_date m) + 6) 7
                  ltac:(lia)).
    pose proof (Z.div_mod (ts_date M - monday_on_or_before (ts_date m) + 6) 7
                  ltac:(lia)).
    lia.
Qed.

(** X1: the number of weeks returned for a series is the number of whole
    or started weeks between the Monday on or before its minimum date and
    its maximum date; no week at all when both are the same day. *)
Theorem segments_count (dates : list Timestamp) (m M : Timestamp) :
  segmentable dates → series_min dates = Some m → series_max dates = Some M →
  ∃ segments,
    (∃ enough, ∀ fuel, (enough ≤ fuel)%nat →
       segmenting_time_period fuel dates 7 = Some (Ok segments))
    ∧ Z.of_nat (length segments)
      = (ts_date M - monday_on_or_before (ts_date m) + 6) `div` 7.
Proof.
  intros Hseg Hm HM.
  destruct (segmenting_returns _ _ _ Hseg Hm HM) as (n & Hret & Hn & _).
  eexists. split; [by exists n|].
  unfold appended. by rewrite length_fmap, length_seqZ, Nat2Z.id.
Qed.

(** X2: every week returned for a series starts on a Monday. *)
Theorem segments_start_on_mondays (dates : list Timestamp) :
  segmentable dates →
  ∃ segments,
    (∃ enough, ∀ fuel, (enough ≤ fuel)%nat →
       segmenting_time_period fuel dates 7 = Some (Ok segments))
    ∧ Forall (λ w, weekday (Week.first_day w) = 0) segments.
Proof.
  intros Hseg.
  destruct (segmentable_bounds _ Hseg) as (m & M & Hm & HM & _).
  destruct (segmenting_returns _ _ _ Hseg Hm HM) as (n & Hret & _).
  eexists. split; [by exists n|].
  apply Forall_forall. intros w Hw. apply elem_of_appended in Hw as (i & _ & ->).
  simpl. rewrite weekday_add_week. apply weekday_rolled_back.
Qed.

(** X3: no week returned for a series contains a day of the calendar week
    its minimum date lies in: the measurements of that week, the minimum
    among them, belong to no week. *)
Theorem first_calendar_week_in_no_segment (dates : list Timestamp) (m : Timestamp) :
  segmentable dates → series_min dates = Some m →
  ∃ segments,
    (∃ enough, ∀ fuel, (enough ≤ fuel)%nat →
       segmenting_time_period fuel dates 7 = Some (Ok segments))
    ∧ ∀ d w, d < monday_on_or_before (ts_date m) + 7 → w ∈ segments →
        Week.inside_week w d = Ok false.
Proof.
  intros Hseg Hm.
  destruct (segmentable_bounds _ Hseg) as (m' & M & Hm' & HM & _).
  rewrite Hm in Hm'. injection Hm' as <-.
  destruct (segmenting_returns _ _ _ Hseg Hm HM) as (n & Hret & _).
  eexists. split; [by exists n|].
  intros d w Hd Hw. apply elem_of_appended in Hw as (i & Hi & ->).
  unfold Week.inside_week. simpl. by rewrite bool_decide_eq_false_2 by lia.
Qed.

(** X4: every day from the Monday after the minimum date's to the maximum
    date lies in one week returned for the series, and in one only. *)
Theorem later_days_in_one_segment (dates : list Timestamp) (m M : Timestamp) :
  segmentable dates → series_min dates = Some m → series_max dates = Some M →
  ∃ segments,
    (∃ enough, ∀ fuel, (enough ≤ fuel)%nat →
       segmenting_time_period fuel dates 7 = Some (Ok segments))
    ∧ ∀ d, monday_on_or_before (ts_date m) + 7 ≤ d ≤ ts_date M →
        ∃ w, w ∈ segments ∧ Week.inside_week w d = Ok true
             ∧ ∀ w', w' ∈ segments → Week.inside_week w' d = Ok true → w' = w.
Proof.
  intros Hseg Hm HM.
  destruct (segmenting_returns _ _ _ Hseg Hm HM)
    as (n & Hret & Hn & Ha & _ & _ & HMn & _ & Hmax).
  eexists. split; [by exists n|].
  intros d Hd. set (a := monday_on_or_before (ts_date m)) in *.
  pose proof (Z.div_mod (d - a) 7 ltac:(lia)) as Hdm.
  pose proof (Z.mod_pos_bound (d - a) 7 ltac:(lia)) as Hmod.
  set (i := (d - a) `div` 7) in *.
  assert (1 ≤ i ≤ Z.of_nat n) as Hi by lia.
  exists (Week.Build (a + 7 * i) (0 + i)). split; [|split].
  - apply list_elem_of_lookup. exists (Z.to_nat (i - 1)).
    apply lookup_appended. split; [lia|]. f_equal; lia.
  - unfold Week.inside_week. simpl. rewrite bool_decide_eq_true_2 by lia.
    rewrite last_day_valid by (simpl; lia). simpl.
    by rewrite bool_decide_eq_true_2 by lia.
  - intros w' Hw' Hin. apply elem_of_appended in Hw' as (j & Hj & ->).
    unfold Week.inside_week in Hin. simpl in Hin.
    case_bool_decide as Hlo; [|done].
    rewrite last_day_valid in Hin by (simpl; lia). simpl in Hin.
    injection Hin as Hhi. apply bool_decide_eq_true in Hhi.
    assert (j = i) as -> by lia. done.
Qed.

(** X5: the last week returned for a series starts on the maximum date or
    up to six days after it: of the series it can contain the measurements
    of the maximum date only, and only when that is its Monday. *)
Theorem last_segment_starts_at_or_after_maximum (dates : list Timestamp) (M : Timestamp) :
  segmentable dates → series_max dates = Some M →
  ∃ segments,
    (∃ enough, ∀ fuel, (enough ≤ fuel)%nat →
       segmenting_time_period fuel dates 7 = Some (Ok segments))
    ∧ ∀ w, last segments = Some w →
        ts_date M ≤ Week.first_day w ≤ ts_date M + 6
        ∧ ∀ t, t ∈ dates → Week.inside_week w (ts_date t) = Ok true →
            ts_date t = Week.first_day w ∧ ts_date t = ts_date M.
Proof.
  intros Hseg HM.
  destruct (segmentable_bounds _ Hseg) as (m & M' & Hm & HM' & _).
  rewrite HM in HM'. injection HM' as <-.
  destruct (segmenting_returns _ _ _ Hseg Hm HM)
    as (n & Hret & Hn & Ha & _ & _ & HMn & HnM & Hmax).
  eexists. split; [by exists n|].
  intros w Hw. rewrite last_lookup in Hw.
  apply lookup_appended in Hw as [Hlt ->]. simpl.
  unfold appended in *. rewrite length_fmap, length_seqZ, Nat2Z.id in *.
  assert (Z.of_nat (Nat.pred n) + 1 = Z.of_nat n) as -> by lia.
  split; [lia|]. intros t Ht Hin.
  pose proof (series_max_greatest _ _ _ HM Ht) as Hle.
  unfold Week.inside_week in Hin. simpl in Hin.
  case_bool_decide as Hlo; [|done]. lia.
Qed.

(** A negative step takes the boundary out of the calendar. *)
Lemma while_loop_negative_overflows (days last_day : Z) (n : nat) :
  days < 0 →
  ∀ (st : Locals.t) (fuel : nat),
    Locals.first_week_day st < last_day →
    (Z.to_nat (Locals.first_week_day st) ≤ n)%nat → (S n ≤ fuel)%nat →
    while_loop fuel days last_day st = Some (Raise OverflowError).
Proof.
  intros Hd. induction n as [|n IH]; intros st fuel Hlt Hn Hfuel;
    (destruct fuel as [|fuel]; [lia|]); simpl;
    rewrite bool_decide_eq_true_2 by done;
    unfold loop_body, timedelta; case_decide; simpl; try done;
    unfold date_add; simpl; case_decide; simpl; try done.
  - lia.
  - apply IH; simpl; lia.
Qed.

(** X6: with a negative segment length, a series whose maximum date is
    after the Monday of its minimum date gets no weeks: the boundary moves
    backwards until the date arithmetic raises [OverflowError]. *)
Theorem negative_segment_length_overflows (dates : list Timestamp) (m M : Timestamp)
    (days_per_segment : Z) :
  series_min dates = Some m → series_max dates = Some M →
  0 < ts_date m ≤ MAXORDINAL →
  monday_on_or_before (ts_date m) < ts_date M →
  days_per_segment < 0 →
  ∃ enough, ∀ fuel, (enough ≤ fuel)%nat →
    segmenting_time_period fuel dates days_per_segment = Some (Raise OverflowError).
Proof.
  intros Hm HM Hv Hlt Hd.
  exists (S (Z.to_nat (monday_on_or_before (ts_date m)))). intros fuel Hfuel.
  unfold segmenting_time_period.
  rewrite (aligned_first_day_Ok _ _ Hm Hv), HM. simpl.
  by rewrite (while_loop_negative_overflows days_per_segment (ts_date M) _ Hd
                (Locals.Build (monday_on_or_before (ts_date m)) 0 []) fuel
                Hlt (le_n _) Hfuel).
Qed.

(** X7: with a segment length of zero, for such a series the loop never
    ends: whatever the fuel, [segmenting_time_period] has not returned. *)
Theorem zero_segment_length_never_returns (dates : list Timestamp) (m M : Timestamp)
    (fuel : nat) :
  series_min dates = Some m → series_max dates = Some M →
  0 < ts_date m ≤ MAXORDINAL →
  monday_on_or_before (ts_date m) < ts_date M →
  segmenting_time_period fuel dates 0 = None.
Proof.
  intros Hm HM Hv Hlt. unfold segmenting_time_period.
  rewrite (aligned_first_day_Ok _ _ Hm Hv), HM. simpl.
  rewrite while_loop_zero_diverges; [done| |done]. simpl.
  pose proof (monday_on_or_before_le (ts_date m)).
  pose proof (rolled_back_positive (ts_date m) ltac:(lia)) as Hpos.
  fold (monday_on_or_before (ts_date m)) in Hpos. lia.
Qed.

(** ** Worlds *)

Lemma keeps_refl (σ : World) : keeps σ σ.
Proof. split; done. Qed.

Lemma keeps_trans (σ1 σ2 σ3 : World) : keeps σ1 σ2 → keeps σ2 σ3 → keeps σ1 σ3.
Proof. intros [? ?] [? ?]. split; etrans; done. Qed.

Lemma keeps_write (path : string) (c : content) (σ : World) : keeps σ (write path c σ).
Proof. split; simpl; [|done]. apply dom_insert_subseteq. Qed.

Lemma keeps_print (line : string) (σ : World) : keeps σ (print line σ).
Proof. split; simpl; [done|]. by apply prefix_app_r. Qed.

Lemma Path_exists_dom (path : string) (σ : World) :
  Path_exists path σ = true ↔ path ∈ dom (files σ).
Proof.
  unfold Path_exists. rewrite bool_decide_eq_true. symmetry. apply elem_of_dom.
Qed.

Lemma Path_exists_keeps (path : string) (σ σ' : World) :
  keeps σ σ' → Path_exists path σ = true → Path_exists path σ' = true.
Proof. intros [Hdom _]. rewrite !Path_exists_dom. apply Hdom. Qed.

Lemma Path_exists_write (path : string) (c : content) (σ : World) :
  Path_exists path (write path c σ) = true.
Proof. apply Path_exists_dom. simpl. set_solver. Qed.

Section rendering.
Context {float : Type} `{!Library float}.

Lemma plot_week_keeps (self : CGV.t float) (week : CGV.week_arg) (σ : World) :
  keeps σ (CGV.plot_week self week σ).2.
Proof.
  unfold CGV.plot_week.
  destruct (_ ≫= _) as [[w wd]|e]; simpl; [|apply keeps_refl].
  case_decide; simpl; [apply keeps_print|].
  destruct (CGV.draw self w); simpl; [apply keeps_write|apply keeps_refl].
Qed.

Lemma for_weeks_keeps (self : CGV.t float) (range : list Z)
    (paths : list (option string)) (σ : World) :
  keeps σ (CGV.for_weeks self range paths σ).2.
Proof.
  revert paths σ. induction range as [|week range IH]; intros paths σ; simpl.
  - apply keeps_refl.
  - pose proof (plot_week_keeps self (CGV.Int week) σ) as Hk.
    destruct (CGV.plot_week self (CGV.Int week) σ) as [[path|e] σ1]; simpl in *; [|done].
    eapply keeps_trans; [done|apply IH].
Qed.

(** X8: whatever it returns or raises, [plot_week_range] removes no file
    and takes back no output: the files that were there are there after
    it, and the output starts with the output before it. *)
Theorem plot_week_range_keeps (self : CGV.t float) (first_week last_week : Z) (σ : World) :
  keeps σ (CGV.plot_week_range self first_week last_week σ).2.
Proof. apply for_weeks_keeps. Qed.

Lemma for_weeks_length (self : CGV.t float) (range : list Z)
    (paths paths' : list (option string)) (σ σ' : World) :
  CGV.for_weeks self range paths σ = (Ok paths', σ') →
  length paths' = (length paths + length range)%nat.
Proof.
  revert paths σ. induction range as [|week range IH]; intros paths σ; simpl.
  - intros [= <- _]. lia.
  - destruct (CGV.plot_week self (CGV.Int week) σ) as [[path|e] σ1]; [|done].
    intros Hrest. rewrite (IH _ _ Hrest), length_app. simpl. lia.
Qed.

(** X9: when [plot_week_range] returns, it returns one entry, a path or
    the absent path, for each week number from [first_week] to
    [last_week - 1]: none for [last_week], and none at all when
    [last_week] is not above [first_week]. *)
Theorem plot_week_range_length (self : CGV.t float) (first_week last_week : Z)
    (paths : list (option string)) (σ σ' : World) :
  CGV.plot_week_range self first_week last_week σ = (Ok paths, σ') →
  length paths = Z.to_nat (last_week - first_week).
Proof.
  intros Hrun. apply for_weeks_length in Hrun. by rewrite length_seqZ in Hrun.
Qed.

Lemma plot_week_artifact (self : CGV.t float) (week : CGV.week_arg)
    (path : string) (σ σ' : World) :
  CGV.plot_week self week σ = (Ok (Some path), σ') →
  Path_exists (normpath path) σ' = true.
Proof.
  unfold CGV.plot_week.
  destruct (_ ≫= _) as [[w wd]|e]; [|done].
  case_decide; [done|].
  destruct (CGV.draw self w) as [p|e]; [|done].
  intros [= <- <-]. apply Path_exists_write.
Qed.

Lemma for_weeks_artifacts (self : CGV.t float) (range : list Z)
    (paths paths' : list (option string)) (σ σ' : World) :
  (∀ p, Some p ∈ paths → Path_exists (normpath p) σ = true) →
  CGV.for_weeks self range paths σ = (Ok paths', σ') →
  ∀ p, Some p ∈ paths' → Path_exists (normpath p) σ' = true.
Proof.
  revert paths σ. induction range as [|week range IH]; intros paths σ Hpaths; simpl.
  - by intros [= <- <-].
  - pose proof (plot_week_keeps self (CGV.Int week) σ) as Hk.
    destruct (CGV.plot_week self (CGV.Int week) σ) as [[path|e] σ1] eqn:E; [|done].
    simpl in Hk. apply IH. intros p Hp.
    apply elem_of_app in Hp. destruct Hp as [Hp|Hp].
    + eapply Path_exists_keeps; [done|]. by apply Hpaths.
    + apply list_elem_of_singleton in Hp. subst path.
      by apply (plot_week_artifact _ _ _ _ _ E).
Qed.

(** X10: when [plot_week_range] returns, every path in its result is the
    path of a file that exists. *)
Theorem plot_week_range_artifacts_exist (self : CGV.t float) (first_week last_week : Z)
    (paths : list (option string)) (σ σ' : World) :
  CGV.plot_week_range self first_week last_week σ = (Ok paths, σ') →
  ∀ p, Some p ∈ paths → Path_exists (normpath p) σ' = true.
Proof.
  apply for_weeks_artifacts. intros p Hp. by apply elem_of_nil in Hp.
Qed.

Lemma existing_paths_all_exist (paths : list string) (σ : World) :
  (∀ p, p ∈ paths → Path_exists (normpath p) σ = true) →
  PDF.existing_paths (Some <$> paths) σ = Ok (normpath <$> paths).
Proof.
  intros Hall. rewrite existing_paths_strings. f_equal.
  induction paths as [|p paths IH]; csimpl; [done|].
  rewrite filter_cons_True by (apply Hall; left).
  f_equal. apply IH. intros q Hq. apply Hall. by right.
Qed.

(** X11: rendering and assembly compose. When [plot_week_range] returns
    paths only, no absent one, the list comprehension of [PDF.__init__]
    keeps every one of them, in their order, and the document of the
    object has a block for each. [PDF.__init__] constructs this object and
    no other; it raises where writing the report source or starting the
    typesetter raises, and only there. *)
Theorem rendered_artifacts_are_embedded (self : CGV.t float) (first_week last_week : Z)
    (paths : list string) (file_name : string) (name : option string) (σ σ' : World) :
  CGV.plot_week_range self first_week last_week σ = (Ok (Some <$> paths), σ') →
  let pdf := PDF.Build (normpath <$> paths) name file_name in
  PDF.existing_paths (Some <$> paths) σ' = Ok (normpath <$> paths)
  ∧ PDF.document pdf
    = ["\begin{document}"; EmptyString] ++ ((normpath <$> paths) ≫= block)
      ++ ["\end{document}"]
  ∧ PDF.__init__ (Some <$> paths) file_name name σ'
    = match PDF.build_tex_file pdf σ' with
      | Raise e => (Raise e, σ')
      | Ok σ1 =>
          match PDF.compile_latex pdf σ1 with
          | Raise e => (Raise e, σ1)
          | Ok σ2 => (Ok pdf, σ2)
          end
      end.
Proof.
  intros Hrun pdf.
  assert (PDF.existing_paths (Some <$> paths) σ' = Ok (normpath <$> paths)) as Hkept.
  { apply existing_paths_all_exist. intros p Hp.
    apply (for_weeks_artifacts _ _ _ _ _ _
             (λ q Hq, False_ind _ (proj1 (elem_of_nil _) Hq)) Hrun).
    by apply list_elem_of_fmap_2. }
  split; [done|]. split; [by rewrite document_blocks|].
  unfold PDF.__init__. by rewrite Hkept.
Qed.

Lemma lookup_week_unknown (self : CGV.t float) (n : Z) :
  Forall (λ w, Week.week_number w ≠ n) (CGV.weeks self) →
  CGV.lookup_week self (CGV.Int n) = Raise IndexError.
Proof.
  intros Hn. rewrite Forall_forall in Hn. unfold CGV.lookup_week.
  destruct (filter _ _) as [|w ws] eqn:E; [done|].
  assert (w ∈ filter (λ x, Week.week_number x = n) (CGV.weeks self)) as Hw
    by (rewrite E; left).
  apply list_elem_of_filter in Hw as [Hw Hin]. by destruct (Hn w Hin).
Qed.

(** X12: [plot_week_range] stops at the first week number that no week
    has: when that is [first_week] itself, it raises [IndexError] with
    nothing rendered and nothing printed. *)
Theorem plot_week_range_unknown_first_week (self : CGV.t float) (first_week last_week : Z)
    (σ : World) :
  first_week < last_week →
  Forall (λ w, Week.week_number w ≠ first_week) (CGV.weeks self) →
  CGV.plot_week_range self first_week last_week σ = (Raise IndexError, σ).
Proof.
  intros Hlt Hn. unfold CGV.plot_week_range. rewrite seqZ_cons by lia. simpl.
  unfold CGV.plot_week. by rewrite (lookup_week_unknown _ _ Hn).
Qed.

Lemma filter_appended (days a k j : Z) (n : nat) :
  k < j ≤ k + Z.of_nat n →
  ∃ rest, filter (λ x, Week.week_number x = j) (appended days a k n)
          = Week.Build (a + days * (j - k)) j :: rest.
Proof.
  revert a k. induction n as [|n IH]; intros a k Hj; [lia|].
  rewrite appended_S. destruct (decide (k + 1 = j)) as [<-|Hne].
  - rewrite filter_cons_True by done. eexists. f_equal. f_equal. lia.
  - rewrite filter_cons_False by done.
    destruct (IH (a + days) (k + 1) ltac:(lia)) as [rest ->].
    eexists. f_equal. f_equal. lia.
Qed.

(** X13: with the weeks as [segmenting_time_period] numbers them, 1 to N
    from the first on, [plot_week] of a number from 1 to N is [plot_week]
    of the week of that number, the one that starts that many segments
    after the aligned Monday. *)
Theorem plot_week_by_number (self : CGV.t float) (days a n : Z) (N : nat) (σ : World) :
  CGV.weeks self = appended days a 0 N →
  1 ≤ n ≤ Z.of_nat N →
  CGV.plot_week self (CGV.Int n) σ
  = CGV.plot_week self (CGV.Obj (Week.Build (a + days * n) n)) σ.
Proof.
  intros Hweeks Hn. unfold CGV.plot_week, CGV.lookup_week. rewrite Hweeks.
  destruct (filter_appended days a 0 n N ltac:(lia)) as [rest ->].
  by replace (n - 0) with n by lia.
Qed.


End rendering.

(** ** Paths of the figures *)

Lemma is_digit_pretty_N_char (x : N) : is_digit (pretty_N_char x) = true.
Proof. unfold pretty_N_char. by repeat case_match. Qed.

Lemma all_digits_pretty_N_go (x : N) (s : string) :
  all_digits s = true → all_digits (pretty_N_go x s) = true.
Proof.
  revert s. induction (N.lt_wf_0 x) as [x _ IH]; intros s Hs.
  assert (x = 0 ∨ 0 < x)%N as [->|Hx] by lia.
  - by rewrite pretty_N_go_0.
  - rewrite pretty_N_go_step by done. apply IH; [by apply N.div_lt|].
    simpl. by rewrite is_digit_pretty_N_char.
Qed.

Lemma all_digits_pretty (n : Z) : 0 ≤ n → all_digits (pretty n) = true.
Proof.
  destruct n as [|p|p]; [done| |lia]. intros _.
  unfold pretty, pretty_Z, pretty, pretty_positive, pretty, pretty_N.
  rewrite decide_False by done. by apply all_digits_pretty_N_go.
Qed.

Lemma digits_before_dash (s1 s2 r1 r2 : string) :
  all_digits s1 = true → all_digits s2 = true →
  s1 +:+ String "-" r1 = s2 +:+ String "-" r2 → s1 = s2.
Proof.
  revert s2. induction s1 as [|c1 s1 IH]; intros [|c2 s2] H1 H2 E.
  - done.
  - rewrite string_app_cons in E. injection E as <- _. by simpl in H2.
  - rewrite string_app_cons in E. injection E as -> _. by simpl in H1.
  - rewrite !string_app_cons in E. injection E as -> E.
    simpl in H1, H2. apply andb_true_iff in H1 as [_ H1].
    apply andb_true_iff in H2 as [_ H2]. f_equal. by apply IH.
Qed.

(** X15: two weeks whose path is the same have the same number, for
    numbers that are not negative: the figures of weeks with different
    numbers go to different paths. *)
Theorem plot_path_determines_week_number {float : Type} `{!Library float}
    (w1 w2 : Week.t) (path : string) :
  0 ≤ Week.week_number w1 → 0 ≤ Week.week_number w2 →
  CGV.plot_path w1 = Ok path → CGV.plot_path w2 = Ok path →
  Week.week_number w1 = Week.week_number w2.
Proof.
  intros H1 H2. unfold CGV.plot_path.
  destruct (Week.time_span w1) as [s1|]; [|done].
  destruct (Week.time_span w2) as [s2|]; [|done]. simpl.
  intros [= <-] [= E]. apply (inj (String.app _)) in E.
  apply digits_before_dash in E; [|by apply all_digits_pretty..].
  by apply (inj pretty).
Qed.

(** ** Conversion of the glucose values, further *)

Lemma str_replace_absent (pat : Ascii.ascii) (repl s : string) :
  occurs pat s = false → str_replace pat repl s = s.
Proof.
  induction s as [|c s IH]; simpl; [done|].
  intros [Hc Hs]%orb_false_iff. apply bool_decide_eq_false in Hc.
  rewrite decide_False by done. by rewrite IH.
Qed.

(** X16: the replacement leaves no comma in a string and keeps its
    length: every comma becomes a dot, wherever it stands and however many
    there are. *)
Theorem str_replace_leaves_no_comma (s : string) :
  occurs "," (str_replace "," "." s) = false
  ∧ String.length (str_replace "," "." s) = String.length s.
Proof.
  induction s as [|c s [IHo IHl]]; simpl; [done|].
  case_decide as Hc.
  - change ("." +:+ str_replace "," "." s) with (String "." (str_replace "," "." s)).
    simpl. by rewrite IHo, IHl.
  - simpl. rewrite IHo, IHl. by rewrite bool_decide_eq_false_2.
Qed.

Section conversion.
Context {float : Type} `{!Library float}.

(** X17: a glucose column of strings without a comma, decimals with a dot
    among them, converts as [pd.to_numeric] alone does: the strings reach
    it as they are. *)
Theorem convert_without_comma (data : DataFrame float) (glucose_column : string)
    (col : list (value float)) :
  get_column data glucose_column = Ok col →
  Forall (λ v, match v with
               | Str s => occurs "," s = false
               | NaN => True
               | _ => False
               end) col →
  CGV.convert_glucose_data data glucose_column = column_to_numeric col.
Proof.
  intros Hcol Hall. unfold CGV.convert_glucose_data. rewrite Hcol. simpl.
  assert (column_str_replace "," "." col = Ok col) as ->; [|done].
  rewrite column_str_replace_objects.
  - f_equal. rewrite <- (list_fmap_id col) at 2. apply Forall_fmap_ext.
    eapply Forall_impl; [exact Hall|]. intros [|s|t|x]; simpl; try done.
    intros Hs. by rewrite str_replace_absent.
  - eapply Forall_impl; [exact Hall|]. by intros [|s|t|x].
Qed.

(** X18: a glucose column that holds numbers, as [pd.read_csv] leaves a
    column of plain integers or of decimals with a dot, has no [.str]:
    [convert_glucose_data] raises [AttributeError]. *)
Theorem convert_numeric_column_raises (data : DataFrame float) (glucose_column : string)
    (col : list (value float)) :
  get_column data glucose_column = Ok col →
  col ≠ [] → Forall (λ v, is_Num v = true) col →
  CGV.convert_glucose_data data glucose_column = Raise AttributeError.
Proof.
  intros Hcol Hne Hall. unfold CGV.convert_glucose_data. rewrite Hcol. simpl.
  unfold column_str_replace. by rewrite column_of_all.
Qed.

End conversion.

(** ** The weeks since three months *)

Lemma inside_week_valid (w : Week.t) (d : date) :
  0 < Week.first_day w + 6 ≤ MAXORDINAL →
  Week.inside_week w d
  = Ok (bool_decide (Week.first_day w ≤ d ≤ Week.first_day w + 6)).
Proof.
  intros Hv. unfold Week.inside_week. rewrite last_day_valid by done. simpl.
  repeat case_bool_decide; try done; lia.
Qed.

Section since.
Context {float : Type} `{!Library float}.

Lemma find_starting_week_none (weeks : list Week.t) (starting_date : date)
    (starting_week : option Z) :
  Forall (λ w, Week.inside_week w starting_date = Ok false) weeks →
  CGV.find_starting_week weeks starting_date starting_week = Ok starting_week.
Proof.
  intros Hall. revert starting_week.
  induction Hall as [|w ws Hw _ IH]; intros starting_week; simpl; [done|].
  rewrite Hw. simpl. apply IH.
Qed.

(** X19: when no week contains the day twelve weeks before today, and no
    week does when the measurements are all more recent than that,
    [plot_since_three_month] reads [starting_week] unassigned: it ends
    with [UnboundLocalError] and renders nothing. *)
Theorem plot_since_three_month_unbound (today : date) (self : CGV.t float) (σ : World) :
  0 < today - 84 ≤ MAXORDINAL →
  Forall (λ w, Week.inside_week w (today - 84) = Ok false) (CGV.weeks self) →
  CGV.plot_since_three_month today self σ = UnboundLocalError.
Proof.
  intros Hv Hnone. unfold CGV.plot_since_three_month. simpl.
  unfold date_sub. rewrite date_add_valid by lia. simpl.
  replace (today + - (7 * (3 * 4))) with (today - 84) by lia.
  by rewrite find_starting_week_none.
Qed.

Lemma find_starting_week_generated (sd : date) (n : nat) :
  ∀ (a k : Z) (acc : option Z),
    0 < a → a + 7 * Z.of_nat n + 6 ≤ MAXORDINAL →
    CGV.find_starting_week (appended 7 a k n) sd acc
    = Ok (if decide (a + 7 ≤ sd ≤ a + 7 * Z.of_nat n + 6)
          then Some (k + (sd - a) `div` 7) else acc).
Proof.
  induction n as [|n IH]; intros a k acc Ha Hmax.
  - simpl. by rewrite decide_False by lia.
  - rewrite appended_S. simpl.
    rewrite inside_week_valid by (simpl; lia). simpl.
    rewrite IH by lia. f_equal.
    pose proof (Z.div_mod (sd - a) 7 ltac:(lia)) as Hdm.
    pose proof (Z.mod_pos_bound (sd - a) 7 ltac:(lia)) as Hmod.
    replace (sd - (a + 7)) with (sd - a + (-1) * 7) by lia.
    rewrite Z.div_add by lia.
    repeat case_decide; repeat case_bool_decide; try lia; try done; f_equal; lia.
Qed.

(** X20: with the weeks as [segmenting_time_period] returns them, when the
    day twelve weeks before today lies in the week of number [k],
    [plot_since_three_month] is [plot_week_range] from [k] to the number
    of weeks: it renders the weeks [k] to N - 1 and leaves the last one
    out. *)
Theorem plot_since_three_month_range (today : date) (self : CGV.t float)
    (a k : Z) (N : nat) (σ : World) :
  CGV.weeks self = appended 7 a 0 N →
  0 < a → a + 7 * Z.of_nat N + 6 ≤ MAXORDINAL →
  1 ≤ k ≤ Z.of_nat N →
  a + 7 * k ≤ today - 84 ≤ a + 7 * k + 6 →
  CGV.plot_since_three_month today self σ
  = Completes (CGV.plot_week_range self k (Z.of_nat N) σ).
Proof.
  intros Hweeks Ha Hmax Hk Hsd. unfold CGV.plot_since_three_month. simpl.
  unfold date_sub. rewrite date_add_valid by lia. simpl.
  replace (today + - (7 * (3 * 4))) with (today - 84) by lia.
  rewrite Hweeks, find_starting_week_generated by done.
  rewrite decide_True by lia.
  assert ((today - 84 - a) `div` 7 = k) as ->.
  { symmetry. apply (Z.div_unique _ _ _ (today - 84 - a - 7 * k)); lia. }
  unfold appended. by rewrite length_fmap, length_seqZ, Nat2Z.id.
Qed.

(** X21: so when that day lies in the last week, [plot_since_three_month]
    returns the empty list: nothing is rendered, not the week that holds
    the day either. *)
Theorem plot_since_three_month_last_week (today : date) (self : CGV.t float)
    (a : Z) (N : nat) (σ : World) :
  CGV.weeks self = appended 7 a 0 N →
  0 < a → a + 7 * Z.of_nat N + 6 ≤ MAXORDINAL →
  (1 ≤ N)%nat →
  a + 7 * Z.of_nat N ≤ today - 84 ≤ a + 7 * Z.of_nat N + 6 →
  CGV.plot_since_three_month today self σ = Completes (Ok [], σ).
Proof.
  intros Hweeks Ha Hmax HN Hsd. unfold CGV.plot_since_three_month. simpl.
  unfold date_sub. rewrite date_add_valid by lia. simpl.
  replace (today + - (7 * (3 * 4))) with (today - 84) by lia.
  rewrite Hweeks, find_starting_week_generated by done.
  rewrite decide_True by lia.
  assert ((today - 84 - a) `div` 7 = Z.of_nat N) as ->.
  { symmetry. apply (Z.div_unique _ _ _ (today - 84 - a - 7 * Z.of_nat N)); lia. }
  unfold appended. rewrite length_fmap, length_seqZ, Nat2Z.id.
  unfold CGV.plot_week_range. by rewrite seqZ_nil by lia.
Qed.

End since.

(** ** Cleaning of the table *)

Lemma boolean_mask_fmap {A} (p : A → bool) (l : list A) :
  boolean_mask (p <$> l) l = filter (λ x, p x = true) l.
Proof.
  induction l as [|x l IH]; csimpl; [done|]. rewrite filter_cons, IH.
  destruct (p x); [by rewrite decide_True|by rewrite decide_False].
Qed.

Lemma zip_with_andb_fmap {A} (p q : A → bool) (l : list A) :
  zip_with andb (p <$> l) (q <$> l) = (λ x, p x && q x) <$> l.
Proof. induction l as [|x l IH]; csimpl; [done|]. by rewrite IH. Qed.

Section cleaning.
Context {float : Type} `{!Library float}.

Lemma get_column_cells (df : DataFrame float) (name : string) (i : nat) :
  column_index df name = Some i → get_column df name = Ok (cell i <$> rows df).
Proof. intros Hi. unfold get_column. by rewrite Hi. Qed.

(** Lines 105 to 107, for the construction below. *)
Lemma drop_missing_complete (data : DataFrame float)
    (date_column glucose_column : string) (i j : nat) :
  column_index data date_column = Some i →
  column_index data glucose_column = Some j →
  CGV.drop_missing data (Some date_column) (Some glucose_column)
  = Ok {| columns := columns data; rows := filter (complete i j) (rows data) |}.
Proof.
  intros Hi Hj. unfold CGV.drop_missing. simpl.
  rewrite (get_column_cells _ _ _ Hi). simpl.
  rewrite (get_column_cells _ _ _ Hj). simpl.
  do 2 f_equal. rewrite <- !list_fmap_compose, zip_with_andb_fmap, boolean_mask_fmap.
  apply list_filter_iff. intros r. unfold complete. simpl.
  by rewrite andb_true_iff.
Qed.

(** X22: of a table that has both columns, lines 105 to 107 keep the rows
    that have a value in both, and those only, in their order; the
    columns stay. *)
Theorem drop_missing_keeps_complete_rows (data : DataFrame float)
    (date_column glucose_column : string) (i j : nat) :
  column_index data date_column = Some i →
  column_index data glucose_column = Some j →
  CGV.drop_missing data (Some date_column) (Some glucose_column)
  = Ok {| columns := columns data; rows := filter (complete i j) (rows data) |}.
Proof.
  intros Hi Hj. unfold CGV.drop_missing. simpl.
  rewrite (get_column_cells _ _ _ Hi). simpl.
  rewrite (get_column_cells _ _ _ Hj). simpl.
  do 2 f_equal. rewrite <- !list_fmap_compose, zip_with_andb_fmap, boolean_mask_fmap.
  apply list_filter_iff. intros r. unfold complete. simpl.
  by rewrite andb_true_iff.
Qed.

Lemma value_le_total (a b : value float) : value_le a b = false → value_le b a = true.
Proof.
  destruct a as [| |s|], b as [| |t|]; simpl; try done.
  unfold ts_le. intros Hab. apply bool_decide_eq_false in Hab.
  apply bool_decide_eq_true. lia.
Qed.

Lemma insert_row_Permutation (i : nat) (r : list (value float)) (rs : list (list (value float))) :
  insert_row i r rs ≡ₚ r :: rs.
Proof.
  induction rs as [|r' rs IH]; simpl; [done|].
  destruct (value_le _ _); [done|]. rewrite IH. apply Permutation_swap.
Qed.

Lemma insert_row_ordered (i : nat) (r : list (value float)) (rs : list (list (value float))) :
  ordered_by i rs → ordered_by i (insert_row i r rs).
Proof.
  induction rs as [|r' rs IH]; simpl; [done|]. intros [Hhd Htl].
  destruct (value_le (default NaN (r !! i)) (default NaN (r' !! i))) eqn:E.
  - simpl. done.
  - apply value_le_total in E. specialize (IH Htl).
    change (ordered_by i (r' :: insert_row i r rs)). simpl. split; [|done].
    destruct rs as [|r'' rs]; simpl in *; [done|].
    by destruct (value_le (default NaN (r !! i)) (default NaN (r'' !! i))).
Qed.

End cleaning.

(** ** Construction, further *)

Lemma mapM_Forall2 {A B} (f : A → result B) (l : list A) (l' : list B) :
  mapM f l = Ok l' → Forall2 (λ x y, f x = Ok y) l l'.
Proof.
  revert l'. induction l as [|x l IH]; intros l'.
  - intros [= <-]. constructor.
  - rewrite mapM_cons. destruct (f x) as [y|] eqn:E; [|done]. simpl.
    destruct (mapM f l) as [k|]; [|done]. simpl. intros [= <-].
    constructor; [done|]. by apply IH.
Qed.

Lemma Forall2_zip_with {A B C} (R : A → B → Prop) (P : C → Prop) (f : A → B → C)
    (l : list A) (k : list B) :
  Forall2 R l k → (∀ x y, R x y → P (f x y)) → Forall P (zip_with f l k).
Proof. intros HR HP. induction HR; simpl; constructor; auto. Qed.

Lemma Forall_insert_row {float} (P : list (value float) → Prop) (i : nat)
    (r : list (value float)) (rs : list (list (value float))) :
  P r → Forall P rs → Forall P (insert_row i r rs).
Proof.
  intros Hr Hrs. induction Hrs as [|r' rs Hr' Hrs IH]; simpl.
  - by constructor.
  - destruct (value_le _ _); repeat constructor; done.
Qed.

Lemma cell_insert_eq {float} (i : nat) (v : value float) (r : list (value float)) :
  notna (cell i r) = true → cell i (<[i:=v]> r) = v.
Proof.
  unfold cell. intros Hr. destruct (r !! i) as [x|] eqn:E; [|done].
  rewrite list_lookup_insert_eq; [done|]. by eapply lookup_lt_Some.
Qed.

Lemma cell_insert_ne {float} (i j : nat) (v : value float) (r : list (value float)) :
  i ≠ j → cell j (<[i:=v]> r) = cell j r.
Proof. intros Hne. unfold cell. by rewrite list_lookup_insert_ne. Qed.

Lemma Forall2_zip_with_l {A B} (R : A → B → Prop) (Q : A → A → Prop) (f : A → B → A)
    (l : list A) (k : list B) :
  Forall2 R l k → (∀ x y, R x y → Q x (f x y)) → Forall2 Q l (zip_with f l k).
Proof. intros HR HQ. induction HR; simpl; constructor; auto. Qed.

Lemma Forall2_compose {A B C} (R : A → B → Prop) (R' : B → C → Prop)
    (l : list A) (k : list B) (m : list C) :
  Forall2 R l k → Forall2 R' k m → Forall2 (λ x z, ∃ y, R x y ∧ R' y z) l m.
Proof.
  intros HR. revert m. induction HR as [|x y l k Hxy _ IH]; intros m HR'.
  - inversion HR'. constructor.
  - inversion HR' as [|y' z k' m' Hyz Hkm]; subst. constructor; eauto.
Qed.

Lemma length_foldr_insert_row {float} (i : nat) (rs : list (list (value float))) :
  length (foldr (insert_row i) [] rs) = length rs.
Proof.
  induction rs as [|r rs IH]; simpl; [done|].
  by rewrite (Permutation_length (insert_row_Permutation i r _)), <- IH.
Qed.

Lemma ordered_by_cells {float} (i : nat) (rs rs' : list (list (value float))) :
  Forall2 (λ r r', cell i r = cell i r') rs rs' → ordered_by i rs → ordered_by i rs'.
Proof.
  induction 1 as [|r r' rs rs' Hr Hrs IH]; simpl; [done|].
  intros [Hhd Htl]. split; [|by apply IH].
  destruct Hrs as [|r2 r2' rs2 rs2' Hr2 _]; [done|].
  unfold key_le in *. by rewrite <- Hr, <- Hr2.
Qed.

Section construction.
Context {float : Type} `{!Library float}.

Lemma to_datetime_complete (v v' : value float) :
  notna v = true →
  match v with
  | Str s => Datetime <$> to_datetime s
  | NaN => Ok NaN
  | Datetime t => Ok (Datetime t)
  | Num _ => Raise ValueError
  end = Ok v' → ∃ t, v' = Datetime t.
Proof.
  destruct v as [|s|t|x]; simpl; try done.
  - intros _. destruct (to_datetime s) as [t|]; simpl; [|done]. intros [= <-]. eauto.
  - intros _ [= <-]. eauto.
Qed.

(** A cell after [.str.replace] and [pd.to_numeric]: a string has become a
    number, any other cell a missing value. *)
Lemma to_numeric_replaced (v v' : value float) :
  match
    match v with
    | Str s => Str (str_replace "," "." s)
    | _ => NaN
    end
  with
  | Str s => Num <$> to_numeric s
  | NaN => Ok NaN
  | Num x => Ok (Num x)
  | Datetime _ => Raise TypeError
  end = Ok v' →
  (textual v → notna v = true → ∃ x, v' = Num x)
  ∧ (v' = NaN ∨ ∃ x, v' = Num x).
Proof.
  destruct v as [|s|t|x]; simpl; try (intros [= <-]; split; [done|by left]).
  destruct (to_numeric _) as [x|]; simpl; [|done].
  intros [= <-]. split; [eauto|right; eauto].
Qed.

(** What a successful construction went through. *)
Lemma constructed_inv (fuel : nat) (csv : DataFrame float) (dc gc : string)
    (σ σ' : World) (self : CGV.t float) :
  CGV.__init__ fuel csv dc gc σ = Some (Ok self, σ') →
  ∃ i j,
    column_index csv dc = Some i ∧ column_index csv gc = Some j
    ∧ CGV.date_column self = dc ∧ CGV.glucose_column self = gc
    ∧ columns (CGV.data self) = columns csv
    ∧ length (rows (CGV.data self)) = length (filter (complete i j) (rows csv))
    ∧ Forall (converted i j) (rows (CGV.data self))
    ∧ (Forall (λ r, textual (cell j r)) (rows csv) →
       Forall (cleaned i j) (rows (CGV.data self)))
    ∧ ordered_by i (rows (CGV.data self))
    ∧ segmenting_time_period fuel (timestamps (cell i <$> rows (CGV.data self))) 7
      = Some (Ok (CGV.weeks self))
    ∧ CGV._add_figure_folder σ = Ok σ'.
Proof.
  unfold CGV.__init__, CGV.load.
  destruct (decide (dc ∈ columns csv)) as [Hd|Hd]; [|done].
  destruct (decide (gc ∈ columns csv)) as [Hg|Hg].
  2:{ unfold CGV.drop_missing. simpl. unfold get_column.
      destruct (column_index_Some _ _ Hd) as [i ->]. done. }
  destruct (column_index_Some _ _ Hd) as [i Hi].
  destruct (column_index_Some _ _ Hg) as [j Hj].
  rewrite (drop_missing_complete _ _ _ _ _ Hi Hj). simpl.
  set (rows1 := filter (complete i j) (rows csv)).
  rewrite (get_column_cells {| columns := columns csv; rows := rows1 |} dc i Hi). simpl.
  destruct (column_to_datetime (cell i <$> rows1)) as [col1|] eqn:Hdt; simpl; [|done].
  unfold set_column at 1. unfold sort_values, column_index in *. simpl.
  rewrite Hi. simpl. rewrite Hi. simpl.
  set (rows2 := zip_with (λ r v, <[i:=v]> r) rows1 col1).
  set (rows3 := foldr (insert_row i) [] rows2).
  unfold CGV.dates.
  rewrite (get_column_cells {| columns := columns csv; rows := rows3 |} dc i Hi). simpl.
  destruct (segmenting_time_period fuel _ 7) as [[weeks|]|] eqn:Hseg; try done.
  unfold CGV.convert_glucose_data.
  rewrite (get_column_cells {| columns := columns csv; rows := rows3 |} gc j Hj). simpl.
  unfold column_str_replace.
  destruct (column_of is_Num (cell j <$> rows3) || column_of is_Datetime (cell j <$> rows3))
    eqn:Hkind; simpl; [done|].
  apply orb_false_iff in Hkind as [_ Hkind].
  destruct (column_to_numeric _) as [col3|] eqn:Hnum; simpl; [|done].
  destruct (CGV._add_figure_folder σ) as [σ1|] eqn:Hfolder; [|done].
  intros [= <- <-]. exists i, j. simpl.
  unfold set_column, column_index. simpl. rewrite Hj. simpl.
  (* the rows after the dates are parsed *)
  assert (Forall2 (λ r v, (complete i j r ∧ r ∈ rows csv) ∧ ∃ t, v = Datetime t)
            rows1 col1) as H12.
  { apply mapM_Forall2, Forall2_fmap_l in Hdt.
    assert (Forall (λ r, complete i j r ∧ r ∈ rows csv) rows1) as Hc
      by (apply Forall_forall; intros r Hr; by apply list_elem_of_filter in Hr).
    clear -Hdt Hc. induction Hdt as [|r v rs vs Hrv _ IH]; [constructor|].
    apply Forall_cons in Hc as [Hr Hrs]. constructor; [|by apply IH].
    split; [done|]. destruct Hr as [[Hri _] _]. by eapply to_datetime_complete. }
  set (parsed := λ r : list (value float),
         (∃ t, cell i r = Datetime t) ∧ notna (cell j r) = true
         ∧ (i ≠ j → ∃ r0, r0 ∈ rows csv ∧ cell j r = cell j r0)).
  assert (Forall parsed rows2) as H2.
  { eapply Forall2_zip_with; [exact H12|]. intros r v [[[Hri Hrj] Hr] [t ->]].
    unfold parsed. rewrite cell_insert_eq by done. split; [eauto|].
    destruct (decide (i = j)) as [<-|Hne].
    - by rewrite cell_insert_eq.
    - rewrite cell_insert_ne by done. eauto. }
  assert (Forall parsed rows3) as H3.
  { subst rows3. clear -H2. induction H2; simpl; [constructor|].
    by apply Forall_insert_row. }
  (* a date column that is the glucose column has no row left *)
  assert (i ≠ j ∨ rows3 = []) as Hij.
  { destruct (decide (i = j)) as [Heq|Hne]; [right|by left].
    destruct (cell j <$> rows3) as [|v vs] eqn:Ecol; [by apply fmap_nil_inv in Ecol|].
    rewrite column_of_all in Hkind; [done|done|].
    rewrite <- Ecol. apply Forall_fmap. eapply Forall_impl; [exact H3|].
    intros r [[t Hr] _]. simpl. rewrite <- Heq, Hr. done. }
  (* the rows after the glucose values are converted *)
  assert (Forall2 (λ r v, parsed r
                          ∧ (textual (cell j r) → ∃ x, v = Num x)
                          ∧ (v = NaN ∨ ∃ x, v = Num x)) rows3 col3) as H34.
  { apply mapM_Forall2 in Hnum. rewrite !Forall2_fmap_l in Hnum.
    clear -Hnum H3. clearbody rows3.
    induction Hnum as [|r v rs vs Hrv _ IH]; [constructor|].
    apply Forall_cons in H3 as [Hr Hrs]. constructor; [|by apply IH].
    split; [done|]. simpl in Hrv. apply to_numeric_replaced in Hrv as [Htext Hv].
    split; [|done]. intros Ht. apply Htext; [done|]. by destruct Hr as (_ & ? & _). }
  assert (Forall2 (λ r r', cell i r = cell i r' ∧ converted i j r'
                           ∧ (textual (cell j r) → cleaned i j r'))
            rows3 (zip_with (λ r v, <[j:=v]> r) rows3 col3)) as H4.
  { destruct Hij as [Hne|Hnil]; [|rewrite Hnil; constructor].
    eapply Forall2_zip_with_l; [exact H34|].
    intros r v [([t Hri] & Hrj & _) [Htext Hv]]. simpl.
    unfold converted, cleaned.
    rewrite !cell_insert_ne by done. rewrite cell_insert_eq by done.
    split; [done|]. split; [split; [eauto|done]|].
    intros Ht. split; [eauto|by apply Htext]. }
  assert ((cell i <$> zip_with (λ r v, <[j:=v]> r) rows3 col3) = cell i <$> rows3) as Hcells.
  { clear -H4. induction H4 as [|r r' rs rs' [Hr _] _ IH]; csimpl; [done|].
    by rewrite IH, Hr. }
  split; [done|]. split; [done|]. split; [done|]. split; [done|]. split; [done|].
  split; [|split; [|split; [|split; [|split; [|done]]]]].
  - rewrite (length_zip_with_same_l _ _ _ _ H34). subst rows3.
    rewrite length_foldr_insert_row. subst rows2.
    by rewrite (length_zip_with_same_l _ _ _ _ H12).
  - eapply Forall2_Forall_r; [exact H4|].
    apply Forall_forall. intros r _ r' (_ & Hc & _). done.
  - intros Htext. destruct Hij as [Hne|Hnil]; [|rewrite Hnil; constructor].
    eapply Forall2_Forall_r; [exact H4|].
    eapply Forall_impl; [exact H3|]. intros r (_ & _ & Hr0) r' (_ & _ & Hc).
    apply Hc. destruct (Hr0 Hne) as (r0 & Hin & ->).
    rewrite Forall_forall in Htext. by apply Htext.
  - eapply ordered_by_cells.
    + eapply Forall2_impl; [exact H4|]. by intros r r' [? _].
    + subst rows3. clear. induction rows2 as [|r rs IH]; simpl; [done|].
      by apply insert_row_ordered.
  - by rewrite Hcells.
Qed.

(** X25: in an object [CGV.__init__] has constructed, the table has the
    columns of the input; its rows are as many as the input rows with a
    value in both columns, none when there is no such row; every row has a
    time stamp in the date column, and in the glucose column a number or,
    where the cell was not a string, a missing value; for an input whose
    glucose cells are strings or missing, every row has a number there;
    and the rows are in the order of their time stamps. *)
Theorem constructed_rows_are_clean (fuel : nat) (csv : DataFrame float)
    (date_column glucose_column : string) (σ σ' : World) (self : CGV.t float) :
  CGV.__init__ fuel csv date_column glucose_column σ = Some (Ok self, σ') →
  ∃ i j,
    column_index csv date_column = Some i
    ∧ column_index csv glucose_column = Some j
    ∧ columns (CGV.data self) = columns csv
    ∧ length (rows (CGV.data self)) = length (filter (complete i j) (rows csv))
    ∧ Forall (converted i j) (rows (CGV.data self))
    ∧ (Forall (λ r, textual (cell j r)) (rows csv) →
       Forall (cleaned i j) (rows (CGV.data self)))
    ∧ ordered_by i (rows (CGV.data self)).
Proof.
  intros Hinit.
  destruct (constructed_inv _ _ _ _ _ _ _ Hinit)
    as (i & j & Hi & Hj & _ & _ & Hcols & Hlen & Hconv & Hclean & Hord & _).
  by exists i, j.
Qed.

(** X26: an object [CGV.__init__] has constructed keeps the two column
    names it was given; its weeks are the weeks of the time stamps in its
    own date column, and there is no week when it has no row; and the
    construction has touched the world by [_add_figure_folder] only, which
    did not raise. *)
Theorem constructed_weeks_are_of_its_dates (fuel : nat) (csv : DataFrame float)
    (date_column glucose_column : string) (σ σ' : World) (self : CGV.t float) :
  CGV.__init__ fuel csv date_column glucose_column σ = Some (Ok self, σ') →
  CGV.date_column self = date_column
  ∧ CGV.glucose_column self = glucose_column
  ∧ (∃ ds, CGV.dates (CGV.data self) (CGV.date_column self) = Ok ds
           ∧ segmenting_time_period fuel ds 7 = Some (Ok (CGV.weeks self)))
  ∧ (rows (CGV.data self) = [] → CGV.weeks self = [])
  ∧ CGV._add_figure_folder σ = Ok σ'.
Proof.
  intros Hinit.
  destruct (constructed_inv _ _ _ _ _ _ _ Hinit)
    as (i & j & Hi & Hj & Hdc & Hgc & Hcols & _ & _ & _ & _ & Hweeks & Hσ).
  split; [done|]. split; [done|]. split; [|split; [|done]].
  - eexists. split; [|exact Hweeks].
    unfold CGV.dates. rewrite Hdc.
    rewrite (get_column_cells (CGV.data self) date_column i); [done|].
    unfold column_index in *. by rewrite Hcols.
  - intros Hnil. rewrite Hnil in Hweeks. simpl in Hweeks.
    rewrite segmenting_empty in Hweeks. by injection Hweeks as <-.
Qed.

End construction.

(** ** The sample run, further *)

Section further_sample.
#[local] Existing Instance Reference.library.

Lemma sample_segmentable : segmentable Sample.dates.
Proof. split; [done|decide_by_computation]. Qed.

Lemma segments_count_witness :
  (segmentable Sample.dates
   ∧ series_min Sample.dates = Some Sample.earliest
   ∧ series_max Sample.dates = Some Sample.latest)
  ∧ ∃ segments,
      (∃ enough, ∀ fuel, (enough ≤ fuel)%nat →
         segmenting_time_period fuel Sample.dates 7 = Some (Ok segments))
      ∧ Z.of_nat (length segments) = (738726 - monday_on_or_before 738706 + 6) `div` 7.
Proof.
  split; [split; [exact sample_segmentable|split; reflexivity]|].
  exact (segments_count Sample.dates Sample.earliest Sample.latest
           sample_segmentable eq_refl eq_refl).
Defined.

Lemma segments_start_on_mondays_witness :
  segmentable Sample.dates
  ∧ ∃ segments,
      (∃ enough, ∀ fuel, (enough ≤ fuel)%nat →
         segmenting_time_period fuel Sample.dates 7 = Some (Ok segments))
      ∧ Forall (λ w, weekday (Week.first_day w) = 0) segments.
Proof.
  split; [exact sample_segmentable|].
  exact (segments_start_on_mondays Sample.dates sample_segmentable).
Defined.

Lemma first_calendar_week_in_no_segment_witness :
  (segmentable Sample.dates ∧ series_min Sample.dates = Some Sample.earliest)
  ∧ ∃ segments,
      (∃ enough, ∀ fuel, (enough ≤ fuel)%nat →
         segmenting_time_period fuel Sample.dates 7 = Some (Ok segments))
      ∧ ∀ d w, d < monday_on_or_before 738706 + 7 → w ∈ segments →
          Week.inside_week w d = Ok false.
Proof.
  split; [split; [exact sample_segmentable|reflexivity]|].
  exact (first_calendar_week_in_no_segment Sample.dates Sample.earliest
           sample_segmentable eq_refl).
Defined.

Lemma later_days_in_one_segment_witness :
  (segmentable Sample.dates
   ∧ series_min Sample.dates = Some Sample.earliest
   ∧ series_max Sample.dates = Some Sample.latest)
  ∧ ∃ segments,
      (∃ enough, ∀ fuel, (enough ≤ fuel)%nat →
         segmenting_time_period fuel Sample.dates 7 = Some (Ok segments))
      ∧ ∀ d, monday_on_or_before 738706 + 7 ≤ d ≤ 738726 →
          ∃ w, w ∈ segments ∧ Week.inside_week w d = Ok true
               ∧ ∀ w', w' ∈ segments → Week.inside_week w' d = Ok true → w' = w.
Proof.
  split; [split; [exact sample_segmentable|split; reflexivity]|].
  exact (later_days_in_one_segment Sample.dates Sample.earliest Sample.latest
           sample_segmentable eq_refl eq_refl).
Defined.

Lemma last_segment_starts_at_or_after_maximum_witness :
  (segmentable Sample.dates ∧ series_max Sample.dates = Some Sample.latest)
  ∧ ∃ segments,
      (∃ enough, ∀ fuel, (enough ≤ fuel)%nat →
         segmenting_time_period fuel Sample.dates 7 = Some (Ok segments))
      ∧ ∀ w, last segments = Some w →
          738726 ≤ Week.first_day w ≤ 738726 + 6
          ∧ ∀ t, t ∈ Sample.dates → Week.inside_week w (ts_date t) = Ok true →
              ts_date t = Week.first_day w ∧ ts_date t = 738726.
Proof.
  split; [split; [exact sample_segmentable|reflexivity]|].
  exact (last_segment_starts_at_or_after_maximum Sample.dates Sample.latest
           sample_segmentable eq_refl).
Defined.

Lemma negative_segment_length_overflows_witness :
  (series_min Sample.dates = Some Sample.earliest
   ∧ series_max Sample.dates = Some Sample.latest
   ∧ 0 < 738706 ≤ MAXORDINAL
   ∧ monday_on_or_before 738706 < 738726
   ∧ -7 < 0)
  ∧ ∃ enough, ∀ fuel, (enough ≤ fuel)%nat →
      segmenting_time_period fuel Sample.dates (-7) = Some (Raise OverflowError).
Proof.
  assert (0 < 738706 ≤ MAXORDINAL) as Hv by (unfold MAXORDINAL; lia).
  assert (monday_on_or_before 738706 < 738726) as Hlt by (vm_compute; reflexivity).
  split; [split; [reflexivity|split; [reflexivity|split; [done|split; [done|lia]]]]|].
  apply (negative_segment_length_overflows Sample.dates Sample.earliest Sample.latest);
    [reflexivity|reflexivity|done|done|lia].
Defined.

Lemma zero_segment_length_never_returns_witness :
  (series_min Sample.dates = Some Sample.earliest
   ∧ series_max Sample.dates = Some Sample.latest
   ∧ 0 < 738706 ≤ MAXORDINAL
   ∧ monday_on_or_before 738706 < 738726)
  ∧ segmenting_time_period 1000 Sample.dates 0 = None.
Proof.
  assert (0 < 738706 ≤ MAXORDINAL) as Hv by (unfold MAXORDINAL; lia).
  assert (monday_on_or_before 738706 < 738726) as Hlt by (vm_compute; reflexivity).
  split; [split; [reflexivity|split; [reflexivity|split; done]]|].
  apply (zero_segment_length_never_returns Sample.dates Sample.earliest Sample.latest);
    [reflexivity|reflexivity|done|done].
Defined.

Lemma sample_rendering_week1 :
  CGV.plot_week_range Sample.cgv 1 2 Sample.constructed
  = (Ok (Some <$> [Sample.week1]), Sample.rendered_week1).
Proof. vm_compute. reflexivity. Qed.

Lemma plot_week_range_length_witness :
  CGV.plot_week_range Sample.cgv 1 4 Sample.constructed
  = (Ok Sample.artifacts, Sample.rendered)
  ∧ length Sample.artifacts = Z.to_nat (4 - 1).
Proof.
  split; [exact sample_rendering|].
  exact (plot_week_range_length Sample.cgv 1 4 _ _ _ sample_rendering).
Defined.

Lemma plot_week_range_artifacts_exist_witness :
  CGV.plot_week_range Sample.cgv 1 4 Sample.constructed
  = (Ok Sample.artifacts, Sample.rendered)
  ∧ ∀ p, Some p ∈ Sample.artifacts → Path_exists (normpath p) Sample.rendered = true.
Proof.
  split; [exact sample_rendering|].
  exact (plot_week_range_artifacts_exist Sample.cgv 1 4 _ _ _ sample_rendering).
Defined.

Lemma rendered_artifacts_are_embedded_witness :
  CGV.plot_week_range Sample.cgv 1 2 Sample.constructed
  = (Ok (Some <$> [Sample.week1]), Sample.rendered_week1)
  ∧ let pdf := PDF.Build (normpath <$> [Sample.week1]) (Some "Johannes Schorr") "report" in
    PDF.existing_paths (Some <$> [Sample.week1]) Sample.rendered_week1
    = Ok (normpath <$> [Sample.week1])
    ∧ PDF.document pdf
      = ["\begin{document}"; EmptyString] ++ ((normpath <$> [Sample.week1]) ≫= block)
        ++ ["\end{document}"]
    ∧ PDF.__init__ (Some <$> [Sample.week1]) "report" (Some "Johannes Schorr")
        Sample.rendered_week1
      = match PDF.build_tex_file pdf Sample.rendered_week1 with
        | Raise e => (Raise e, Sample.rendered_week1)
        | Ok σ1 =>
            match PDF.compile_latex pdf σ1 with
            | Raise e => (Raise e, σ1)
            | Ok σ2 => (Ok pdf, σ2)
            end
        end.
Proof.
  split; [exact sample_rendering_week1|].
  exact (rendered_artifacts_are_embedded Sample.cgv 1 2 [Sample.week1] "report"
           (Some "Johannes Schorr") _ _ sample_rendering_week1).
Defined.

Lemma plot_week_range_unknown_first_week_witness :
  (0 < 4 ∧ Forall (λ w, Week.week_number w ≠ 0) (CGV.weeks Sample.cgv))
  ∧ CGV.plot_week_range Sample.cgv 0 4 Sample.constructed
    = (Raise IndexError, Sample.constructed).
Proof.
  assert (Forall (λ w, Week.week_number w ≠ 0) (CGV.weeks Sample.cgv)) as Hnone
    by decide_by_computation.
  split; [split; [lia|done]|].
  apply plot_week_range_unknown_first_week; [lia|done].
Defined.

Lemma plot_week_by_number_witness :
  (CGV.weeks Sample.cgv = appended 7 738704 0 4 ∧ 1 ≤ 3 ≤ Z.of_nat 4)
  ∧ CGV.plot_week Sample.cgv (CGV.Int 3) Sample.constructed
    = CGV.plot_week Sample.cgv (CGV.Obj (Week.Build (738704 + 7 * 3) 3)) Sample.constructed.
Proof.
  assert (CGV.weeks Sample.cgv = appended 7 738704 0 4) as Hweeks by reflexivity.
  split; [split; [done|lia]|].
  apply (plot_week_by_number Sample.cgv 7 738704 3 4); [done|lia].
Defined.

Lemma plot_path_determines_week_number_witness :
  (0 ≤ Week.week_number (Week.Build 738711 1)
   ∧ CGV.plot_path (Week.Build 738711 1) = Ok Sample.week1)
  ∧ Week.week_number (Week.Build 738711 1) = Week.week_number (Week.Build 738711 1).
Proof.
  assert (CGV.plot_path (Week.Build 738711 1) = Ok Sample.week1) as Hpath
    by (vm_compute; reflexivity).
  split; [split; [simpl; lia|done]|].
  apply (plot_path_determines_week_number _ _ Sample.week1); [simpl; lia..|done|done].
Defined.

Lemma convert_without_comma_witness :
  (get_column Sample.dotted "mmol/L" = Ok [Str "7.4"; NaN; Str "12"]
   ∧ Forall (λ v : value Reference.number,
               match v with
               | Str s => occurs "," s = false
               | NaN => True
               | _ => False
               end) [Str "7.4"; NaN; Str "12"])
  ∧ CGV.convert_glucose_data Sample.dotted "mmol/L"
    = Ok [Num (37, 5); NaN; Num (12, 1)].
Proof.
  assert (Forall (λ v : value Reference.number,
                    match v with
                    | Str s => occurs "," s = false
                    | NaN => True
                    | _ => False
                    end) [Str "7.4"; NaN; Str "12"]) as Hall
    by (repeat constructor).
  split; [split; [reflexivity|done]|].
  rewrite (convert_without_comma Sample.dotted "mmol/L" _ eq_refl Hall).
  reflexivity.
Defined.

Lemma convert_numeric_column_raises_witness :
  (get_column Sample.numbers "mmol/L" = Ok [Num (5, 1); Num (6, 1)]
   ∧ [Num (5, 1); Num (6, 1)] ≠ ([] : list (value Reference.number))
   ∧ Forall (λ v : value Reference.number, is_Num v = true) [Num (5, 1); Num (6, 1)])
  ∧ CGV.convert_glucose_data Sample.numbers "mmol/L" = Raise AttributeError.
Proof.
  assert (Forall (λ v : value Reference.number, is_Num v = true)
            [Num (5, 1); Num (6, 1)]) as Hall by (repeat constructor).
  split; [split; [reflexivity|split; done]|].
  by apply (convert_numeric_column_raises Sample.numbers "mmol/L" [Num (5, 1); Num (6, 1)]).
Defined.

Lemma plot_since_three_month_unbound_witness :
  (0 < 738727 - 84 ≤ MAXORDINAL
   ∧ Forall (λ w, Week.inside_week w (738727 - 84) = Ok false) (CGV.weeks Sample.cgv))
  ∧ CGV.plot_since_three_month 738727 Sample.cgv Sample.constructed = UnboundLocalError.
Proof.
  assert (0 < 738727 - 84 ≤ MAXORDINAL) as Hv by (unfold MAXORDINAL; lia).
  assert (Forall (λ w, Week.inside_week w (738727 - 84) = Ok false)
            (CGV.weeks Sample.cgv)) as Hnone by (repeat constructor).
  split; [done|]. by apply plot_since_three_month_unbound.
Defined.

Lemma plot_since_three_month_range_witness :
  (CGV.weeks Sample.cgv = appended 7 738704 0 4
   ∧ 0 < 738704 ∧ 738704 + 7 * Z.of_nat 4 + 6 ≤ MAXORDINAL
   ∧ 1 ≤ 2 ≤ Z.of_nat 4
   ∧ 738704 + 7 * 2 ≤ 738805 - 84 ≤ 738704 + 7 * 2 + 6)
  ∧ CGV.plot_since_three_month 738805 Sample.cgv Sample.constructed
    = Completes (CGV.plot_week_range Sample.cgv 2 (Z.of_nat 4) Sample.constructed).
Proof.
  assert (CGV.weeks Sample.cgv = appended 7 738704 0 4) as Hweeks by reflexivity.
  assert (738704 + 7 * Z.of_nat 4 + 6 ≤ MAXORDINAL) as Hmax by (unfold MAXORDINAL; lia).
  split; [split; [done|split; [lia|split; [done|split; lia]]]|].
  apply (plot_since_three_month_range 738805 Sample.cgv 738704 2 4); [done|lia|done|lia|lia].
Defined.

Lemma plot_since_three_month_last_week_witness :
  (CGV.weeks Sample.cgv = appended 7 738704 0 4
   ∧ 0 < 738704 ∧ 738704 + 7 * Z.of_nat 4 + 6 ≤ MAXORDINAL
   ∧ (1 ≤ 4)%nat
   ∧ 738704 + 7 * Z.of_nat 4 ≤ 738816 - 84 ≤ 738704 + 7 * Z.of_nat 4 + 6)
  ∧ CGV.plot_since_three_month 738816 Sample.cgv Sample.constructed
    = Completes (Ok [], Sample.constructed).
Proof.
  assert (CGV.weeks Sample.cgv = appended 7 738704 0 4) as Hweeks by reflexivity.
  assert (738704 + 7 * Z.of_nat 4 + 6 ≤ MAXORDINAL) as Hmax by (unfold MAXORDINAL; lia).
  split; [split; [done|split; [lia|split; [done|split; lia]]]|].
  apply (plot_since_three_month_last_week 738816 Sample.cgv 738704 4); [done|lia|done|lia|lia].
Defined.

Lemma drop_missing_keeps_complete_rows_witness :
  (column_index Sample.csv Sample.date_column = Some 1%nat
   ∧ column_index Sample.csv Sample.glucose_column = Some 2%nat)
  ∧ CGV.drop_missing Sample.csv (Some Sample.date_column) (Some Sample.glucose_column)
    = Ok {| columns := columns Sample.csv;
            rows := filter (complete 1 2) (rows Sample.csv) |}.
Proof.
  split; [split; reflexivity|].
  exact (drop_missing_keeps_complete_rows Sample.csv Sample.date_column
           Sample.glucose_column 1%nat 2%nat eq_refl eq_refl).
Defined.

Lemma constructed_rows_are_clean_witness :
  CGV.__init__ 4 Sample.csv Sample.date_column Sample.glucose_column Sample.start
  = Some (Ok Sample.cgv, Sample.constructed)
  ∧ ∃ i j,
      column_index Sample.csv Sample.date_column = Some i
      ∧ column_index Sample.csv Sample.glucose_column = Some j
      ∧ columns (CGV.data Sample.cgv) = columns Sample.csv
      ∧ length (rows (CGV.data Sample.cgv)) = length (filter (complete i j) (rows Sample.csv))
      ∧ Forall (converted i j) (rows (CGV.data Sample.cgv))
      ∧ (Forall (λ r, textual (cell j r)) (rows Sample.csv) →
         Forall (cleaned i j) (rows (CGV.data Sample.cgv)))
      ∧ ordered_by i (rows (CGV.data Sample.cgv)).
Proof.
  split; [exact sample_construction|].
  exact (constructed_rows_are_clean 4 Sample.csv _ _ _ _ _ sample_construction).
Defined.

Lemma constructed_weeks_are_of_its_dates_witness :
  CGV.__init__ 4 Sample.csv Sample.date_column Sample.glucose_column Sample.start
  = Some (Ok Sample.cgv, Sample.constructed)
  ∧ CGV.date_column Sample.cgv = Sample.date_column
  ∧ CGV.glucose_column Sample.cgv = Sample.glucose_column
  ∧ (∃ ds, CGV.dates (CGV.data Sample.cgv) (CGV.date_column Sample.cgv) = Ok ds
           ∧ segmenting_time_period 4 ds 7 = Some (Ok (CGV.weeks Sample.cgv)))
  ∧ (rows (CGV.data Sample.cgv) = [] → CGV.weeks Sample.cgv = [])
  ∧ CGV._add_figure_folder Sample.start = Ok Sample.constructed.
Proof.
  split; [exact sample_construction|].
  exact (constructed_weeks_are_of_its_dates 4 Sample.csv _ _ _ _ _ sample_construction).
Defined.

End further_sample.
